(** * FY2026 budget downloader: a shallow embedding of
      [download_fy2026_budget.py] and the properties of its download loop.

    The script is sequential I/O glue.  Its pure parts (file-name
    sanitising, URL and path construction, the manifests) are embedded as
    functions on strings.  Its effects (directory creation, the HTTP
    request, the file write, [print], [time.sleep]) are embedded in a state
    and exception monad over a small model of the file store and a history
    of events.  Whatever the operating system, the library and the network
    decide (whether [os.makedirs], [Request], [urlopen], [read], [open] or
    [write] raise, and what the response body is) is supplied by a [world]
    of oracles, so a theorem quantified over [world] holds for every
    behaviour of the environment.  [print] and [time.sleep] are taken not
    to raise. *)

From Stdlib Require Import String Ascii List ZArith QArith Lia DecimalString.
From stdpp Require Import base gmap strings list.
Import ListNotations.

Local Open Scope string_scope.
Local Open Scope list_scope.

(** ** Python strings

    A Python [str] is embedded as a Rocq [string]; the manifests and every
    literal the script builds paths and URLs from are ASCII, where the two
    notions of character coincide. *)

Module PyStr.

(** [s.replace(old, new)] for a one-character [old]. *)
Fixpoint replace (old : ascii) (new : string) (s : string) : string :=
  match s with
  | EmptyString => EmptyString
  | String c s' =>
      if Ascii.eqb c old then new +:+ replace old new s'
      else String c (replace old new s')
  end.

(** [ch in s] for a character [ch]. *)
Fixpoint contains (ch : ascii) (s : string) : bool :=
  match s with
  | EmptyString => false
  | String c s' => Ascii.eqb c ch || contains ch s'
  end.

(** [s == ch * len(s)]: every character of [s] is [ch]. *)
Fixpoint all_eq (ch : ascii) (s : string) : bool :=
  match s with
  | EmptyString => true
  | String c s' => Ascii.eqb c ch && all_eq ch s'
  end.

(** [s.startswith(ch)] and [s.endswith(ch)] for a character [ch]. *)
Definition startswith (ch : ascii) (s : string) : bool :=
  match s with
  | String c _ => Ascii.eqb c ch
  | EmptyString => false
  end.

Fixpoint endswith (ch : ascii) (s : string) : bool :=
  match s with
  | EmptyString => false
  | String c EmptyString => Ascii.eqb c ch
  | String _ s' => endswith ch s'
  end.

(** [s.rstrip(ch)]. *)
Fixpoint rstrip (ch : ascii) (s : string) : string :=
  match s with
  | EmptyString => EmptyString
  | String c s' => if all_eq ch s then EmptyString else String c (rstrip ch s')
  end.

(** [s[:s.rfind(ch) + 1]]: the prefix of [s] through the last [ch],
    empty when [ch] does not occur. *)
Fixpoint through_last (ch : ascii) (s : string) : string :=
  match s with
  | EmptyString => EmptyString
  | String c s' => if contains ch s then String c (through_last ch s') else EmptyString
  end.

(** [s[:n]]. *)
Fixpoint take (n : nat) (s : string) : string :=
  match n, s with
  | S n', String c s' => String c (take n' s')
  | _, _ => EmptyString
  end.

(** [ch * n]. *)
Fixpoint repeat (ch : ascii) (n : nat) : string :=
  match n with
  | O => EmptyString
  | S n' => String ch (repeat ch n')
  end.

(** The format spec [:<n] (and [:ns] on a string): pad on the right with
    spaces up to width [n]. *)
Definition ljust (n : nat) (s : string) : string :=
  s +:+ repeat " "%char (n - String.length s).

(** [s.split(ch)]: the fields of [s] between occurrences of [ch]. *)
Fixpoint split (ch : ascii) (s : string) : list string :=
  match s with
  | EmptyString => [EmptyString]
  | String c s' =>
      if Ascii.eqb c ch then EmptyString :: split ch s'
      else match split ch s' with
           | f :: fs => String c f :: fs
           | [] => [String c EmptyString]
           end
  end.

(** The string of the images of the characters of [s]. *)
Fixpoint map_chars (f : ascii -> ascii) (s : string) : string :=
  match s with
  | EmptyString => EmptyString
  | String c s' => String (f c) (map_chars f s')
  end.

(** [str(n)] for a non-negative integer and for an integer. *)
Definition of_nat (n : nat) : string := NilZero.string_of_uint (Nat.to_uint n).
Definition of_Z (z : Z) : string := NilZero.string_of_int (Z.to_int z).

End PyStr.

(** ** [os.path] (POSIX flavour, separator [/]) *)

Module os_path.

Definition sep : ascii := "/"%char.

(** One round of the loop of [posixpath.join]. *)
Definition join_step (path b : string) : string :=
  if PyStr.startswith sep b then b
  else if (String.length path =? 0)%nat || PyStr.endswith sep path then path +:+ b
  else path +:+ String sep b.

(** [os.path.join(a, *p)]. *)
Definition join (a : string) (p : list string) : string :=
  fold_left join_step p a.

(** [os.path.dirname(p)]. *)
Definition dirname (p : string) : string :=
  let head := PyStr.through_last sep p in
  if negb (String.length head =? 0)%nat && negb (PyStr.all_eq sep head)
  then PyStr.rstrip sep head
  else head.

(** The directories [os.makedirs(d)] sees to, outermost first: [d]
    itself, before it the head [os.path.split] gives for [d] unless that
    head is empty (or is [d] again, for a path of separators only), and so
    on up.  The length of [d] bounds the number of rounds. *)
Fixpoint ancestors_upto (rounds : nat) (d : string) : list string :=
  match rounds with
  | O => [d]
  | S rounds' =>
      let head := dirname d in
      if String.eqb head EmptyString || String.eqb head d then [d]
      else ancestors_upto rounds' head ++ [d]
  end.

Definition ancestors (d : string) : list string :=
  ancestors_upto (String.length d) d.

End os_path.

(** ** [urllib.parse.quote] *)

Module urllib_parse.

Definition in_range (lo hi : ascii) (c : ascii) : bool :=
  (nat_of_ascii lo <=? nat_of_ascii c)%nat && (nat_of_ascii c <=? nat_of_ascii hi)%nat.

(** The characters [quote] never encodes: letters, digits and [_.-~]. *)
Definition always_safe (c : ascii) : bool :=
  in_range "A" "Z" c || in_range "a" "z" c || in_range "0" "9" c
  || PyStr.contains c "_.-~".

Definition hex_digit (n : nat) : ascii :=
  match n with
  | 0 => "0" | 1 => "1" | 2 => "2" | 3 => "3" | 4 => "4" | 5 => "5" | 6 => "6"
  | 7 => "7" | 8 => "8" | 9 => "9" | 10 => "A" | 11 => "B" | 12 => "C"
  | 13 => "D" | 14 => "E" | _ => "F"
  end%char.

(** [%XX] with upper-case hexadecimal digits. *)
Definition percent (c : ascii) : string :=
  let n := nat_of_ascii c in
  String "%" (String (hex_digit (n / 16)) (String (hex_digit (n mod 16)) EmptyString)).

(** [quote(s)] with the default [safe='/'], on the bytes of [s]. *)
Fixpoint quote (s : string) : string :=
  match s with
  | EmptyString => EmptyString
  | String c s' =>
      if always_safe c || Ascii.eqb c "/" then String c (quote s')
      else percent c +:+ quote s'
  end.

End urllib_parse.

(** ** Module constants and the static manifests *)

Definition OUTPUT_DIR : string := "fy2026_budget".

Definition HEADERS : list (string * string) :=
  [ ("User-Agent",
     "Mozilla/5.0 (Windows NT 10.0; Win64; x64) " +:+
     "AppleWebKit/537.36 (KHTML, like Gecko) " +:+
     "Chrome/131.0.0.0 Safari/537.36");
    ("Accept", "*/*") ].

(** A Python tuple of strings.  The manifests are lists of such tuples, of
    the arities the source writes. *)
Definition tuple : Type := list string.

Definition ARMY_BASE : string :=
  "https://www.asafm.army.mil/Portals/72/Documents/BudgetMaterial/2026/Discretionary%20Budget".

Definition AF_BASE : string := "https://www.saffm.hq.af.mil/Portals/84/documents/FY26".

Definition DW_BASE : string :=
  "https://comptroller.war.gov/Portals/45/Documents/defbudget/FY2026/budget_justification/pdfs".

Definition ARMY_FILES : list tuple :=
  [ ["Military Personnel"; "Military Personnel Army Volume 1"; "xml"];
    ["Military Personnel"; "Reserve Personnel Army Volume 1"; "xml"];
    ["Military Personnel"; "National Guard Personnel Army Volume 1"; "xml"];
    ["Operation and Maintenance"; "Regular Army Operation and Maintenance Volume 1"; "json"];
    ["Operation and Maintenance"; "Regular Army Operation and Maintenance Volume 2"; "json"];
    ["Operation and Maintenance"; "Reserve Army Operation and Maintenance Overview"; "xml"];
    ["Operation and Maintenance"; "Reserve Army Operation and Maintenance"; "xml"];
    ["Operation and Maintenance"; "National Guard Army Operation and Maintenance Overview"; "xml"];
    ["Operation and Maintenance"; "National Guard Army Operation and Maintenance"; "xml"];
    ["Procurement"; "Aircraft Procurement Army"; "xml"];
    ["Procurement"; "Missile Procurement Army"; "xml"];
    ["Procurement"; "Other Procurement - BA1 - Tactical & Support Vehicles"; "xml"];
    ["Procurement"; "Other Procurement - BA2 - Communications & Electronics"; "xml"];
    ["Procurement"; "Other Procurement - BA 3, 4 & 6 - Other Support Equipment, Initial Spares and Agile Portfolio Management"; "xml"];
    ["Procurement"; "Procurement of Ammunition"; "xml"];
    ["Procurement"; "Procurement of Weapons and Tracked Combat Vehicles"; "xml"];
    ["rdte"; "RDTE - Vol 1 - Budget Activity 1"; "xml"];
    ["rdte"; "RDTE - Vol 1 - Budget Activity 2"; "xml"];
    ["rdte"; "RDTE - Vol 1 - Budget Activity 3"; "xml"];
    ["rdte"; "RDTE - Vol 2 - Budget Activity 4A"; "xml"];
    ["rdte"; "RDTE - Vol 2 - Budget Activity 4B"; "xml"];
    ["rdte"; "RDTE - Vol 3 - Budget Activity 5A"; "xml"];
    ["rdte"; "RDTE - Vol 3 - Budget Activity 5B"; "xml"];
    ["rdte"; "RDTE - Vol 3 - Budget Activity 5C"; "xml"];
    ["rdte"; "RDTE - Vol 3 - Budget Activity 5D"; "xml"];
    ["rdte"; "RDTE - Vol 4 - Budget Activity 6"; "xml"];
    ["rdte"; "RDTE - Vol 4 - Budget Activity 7"; "xml"];
    ["rdte"; "RDTE - Vol 4 - Budget Activity 8"; "xml"];
    ["rdte"; "RDTE - Vol 4 - Budget Activity 9"; "xml"];
    ["Military Construction"; "Regular Army Military Construction, Army Family Housing and Homeowners Assistance"; "xml"];
    ["Military Construction"; "Reserve Army Military Construction"; "xml"];
    ["Military Construction"; "National Guard Army Military Construction"; "xml"];
    ["Military Construction"; "Base Realignment and Closure Account"; "xml"];
    ["awcf"; "Army Working Capital Fund"; "xml"];
    ["camdd"; "Chemical Agents and Munitions Destruction, Defense"; "xml"];
    ["U.S. Army Cemeterial Expenses and Construction"; "U.S. Army Cemeterial Expenses and Construction"; "xml"];
    ["Other Funds"; "Counter-Islamic State of Iraq and Syria Train and Equip Fund"; "xml"]
  ].

Definition AF_FILES : list tuple :=
  [ ["BRAC"; "FY26 Base Realignment and Closure"; "xml"];
    ["MILCON"; "FY26 Air Force MILCON"; "xml"];
    ["MILCON"; "FY26 Air National Guard MILCON"; "xml"];
    ["MILCON"; "FY26 Air Force Reserve MILCON"; "xml"];
    ["MILPERS"; "FY26 Air Force MILPERS"; "xml"];
    ["MILPERS"; "FY26 Air National Guard MILPERS"; "xml"];
    ["MILPERS"; "FY26 Air Force Reserves MILPERS"; "xml"];
    ["MILPERS"; "FY26 Space Force MILPERS"; "xml"];
    ["O&M"; "FY26 Air Force Operations and Maintenance Vol I"; "xml"];
    ["O&M"; "FY26 Air Force Operations and Maintenance Vol II"; "xml"];
    ["O&M"; "FY26 Air National Guard Operation and Maintenance Vol I"; "xml"];
    ["O&M"; "FY26 Air National Guard Operation and Maintenance Vol II"; "xml"];
    ["O&M"; "FY26 Air Force Reserve Operations and Maintenance Vol I"; "xml"];
    ["O&M"; "FY26 Air Force Reserve Operations and Maintenance Vol II"; "xml"];
    ["O&M"; "FY26 Space Force Operations and Maintenance Vol I"; "xml"];
    ["O&M"; "FY26 Space Force Operations and Maintenance Vol II"; "xml"];
    ["Procurement"; "FY26 Air Force Aircraft Procurement Vol I"; "xml"];
    ["Procurement"; "FY26 Air Force Aircraft Procurement Vol II"; "xml"];
    ["Procurement"; "FY26 Air Force Ammunition Procurement"; "xml"];
    ["Procurement"; "FY26 Air Force Missile Procurement"; "xml"];
    ["Procurement"; "FY26 Air Force Other Procurement"; "xml"];
    ["Procurement"; "FY26 Space Force Procurement"; "xml"];
    ["RDTE"; "FY26 Air Force Research and Development Test and Evaluation Vol I"; "xml"];
    ["RDTE"; "FY26 Air Force Research and Development Test and Evaluation Vol II"; "xml"];
    ["RDTE"; "FY26 Air Force Research and Development Test and Evaluation Vol III"; "xml"];
    ["RDTE"; "FY26 Space Force Research and Development Test and Evaluation Vol I"; "xml"];
    ["RDTE"; "FY26 Space Force Research and Development Test and Evaluation Vol II"; "xml"]
  ].

Definition DW_FILES : list tuple :=
  [ ["O&M"; "01_Operation_and_Maintenance/O_M_VOL_1_PART_1"; "OM_Volume1_Part1"; "json"];
    ["O&M"; "01_Operation_and_Maintenance/O_M_VOL_1_PART_2"; "OM_Volume1_Part_2"; "json"];
    ["O&M"; "01_Operation_and_Maintenance/O_M_VOL_2"; "Volume_2"; "json"];
    ["O&M_Agencies"; "01_Operation_and_Maintenance/O_M_VOL_1_PART_1"; "Overview_(Part_1)"; "json"];
    ["O&M_Agencies"; "01_Operation_and_Maintenance/O_M_VOL_1_PART_1"; "Summary_by_Agency_(Part_1)"; "json"];
    ["O&M_Agencies"; "01_Operation_and_Maintenance/O_M_VOL_1_PART_1"; "O-1_Summary_(Part_1)"; "json"];
    ["O&M_Agencies"; "01_Operation_and_Maintenance/O_M_VOL_1_PART_1"; "OP-32A_Summary_(Part_1)"; "json"];
    ["O&M_Agencies"; "01_Operation_and_Maintenance/O_M_VOL_1_PART_1"; "CMP_OP-5"; "json"];
    ["O&M_Agencies"; "01_Operation_and_Maintenance/O_M_VOL_1_PART_1"; "CYBERCOM_OP-5"; "json"];
    ["O&M_Agencies"; "01_Operation_and_Maintenance/O_M_VOL_1_PART_1"; "CYBERCOM_Headquarters_OP-5"; "json"];
    ["O&M_Agencies"; "01_Operation_and_Maintenance/O_M_VOL_1_PART_1"; "Cyberspace_Operations_OP-5"; "json"];
    ["O&M_Agencies"; "01_Operation_and_Maintenance/O_M_VOL_1_PART_1"; "DAU_OP-5"; "json"];
    ["O&M_Agencies"; "01_Operation_and_Maintenance/O_M_VOL_1_PART_1"; "DCAA_Cyber_OP-5"; "json"];
    ["O&M_Agencies"; "01_Operation_and_Maintenance/O_M_VOL_1_PART_1"; "DCAA_OP-5"; "json"];
    ["O&M_Agencies"; "01_Operation_and_Maintenance/O_M_VOL_1_PART_1"; "DCMA_Cyber_OP-5"; "json"];
    ["O&M_Agencies"; "01_Operation_and_Maintenance/O_M_VOL_1_PART_1"; "DCMA_OP-5"; "json"];
    ["O&M_Agencies"; "01_Operation_and_Maintenance/O_M_VOL_1_PART_1"; "DCSA_Cyber_OP-5"; "json"];
    ["O&M_Agencies"; "01_Operation_and_Maintenance/O_M_VOL_1_PART_1"; "DCSA_OP-5"; "json"];
    ["O&M_Agencies"; "01_Operation_and_Maintenance/O_M_VOL_1_PART_1"; "DHRA_Cyber_OP-5"; "json"];
    ["O&M_Agencies"; "01_Operation_and_Maintenance/O_M_VOL_1_PART_1"; "DHRA_OP-5"; "json"];
    ["O&M_Agencies"; "01_Operation_and_Maintenance/O_M_VOL_1_PART_1"; "DISA_Cyber_OP-5"; "json"];
    ["O&M_Agencies"; "01_Operation_and_Maintenance/O_M_VOL_1_PART_1"; "DISA_OP-5"; "json"];
    ["O&M_Agencies"; "01_Operation_and_Maintenance/O_M_VOL_1_PART_1"; "DLA_OP-5"; "json"];
    ["O&M_Agencies"; "01_Operation_and_Maintenance/O_M_VOL_1_PART_1"; "DLSA_OP-5"; "json"];
    ["BRAC"; "05_BRAC"; "FY2026_BRAC_Overview"; "xml"]
  ].

Definition DOD_SUMMARY : list tuple :=
  [ ["https://comptroller.war.gov/Portals/45/Documents/defbudget/FY2026/m1_display.xlsx"; "DoD_Summary"; "FY2026_M1_Military_Personnel.xlsx"];
    ["https://comptroller.war.gov/Portals/45/Documents/defbudget/FY2026/o1_display.xlsx"; "DoD_Summary"; "FY2026_O1_Operation_Maintenance.xlsx"];
    ["https://comptroller.war.gov/Portals/45/Documents/defbudget/FY2026/rf1_display.xlsx"; "DoD_Summary"; "FY2026_RF1_Revolving_Management_Fund.xlsx"];
    ["https://comptroller.war.gov/Portals/45/Documents/defbudget/FY2026/p1_display.xlsx"; "DoD_Summary"; "FY2026_P1_Procurement.xlsx"];
    ["https://comptroller.war.gov/Portals/45/Documents/defbudget/FY2026/p1r_display.xlsx"; "DoD_Summary"; "FY2026_P1R_Procurement_Reserve.xlsx"];
    ["https://comptroller.war.gov/Portals/45/Documents/defbudget/FY2026/r1_display.xlsx"; "DoD_Summary"; "FY2026_R1_RDTE.xlsx"];
    ["https://comptroller.war.gov/Portals/45/Documents/defbudget/FY2026/c1.xlsx"; "DoD_Summary"; "FY2026_C1_MilCon_FamilyHousing_BRAC.xlsx"];
    ["https://comptroller.war.gov/Portals/45/Documents/defbudget/FY2026/FY2026_Pacific_Deterrence_Initiative.json"; "DoD_Summary"; "FY2026_Pacific_Deterrence_Initiative.json"];
    ["https://comptroller.war.gov/Portals/45/Documents/defbudget/FY2026/FY2026_Drug_Interdiction_and_Counter-Drug_Activities.json"; "DoD_Summary"; "FY2026_Drug_Interdiction_Counter_Drug.json"]
  ].

(** ** Helper functions of the script *)

(** The characters the loop of [safe_filename] runs over, in the order of
    the source's raw string literal: backslash, slash, colon, star, question
    mark, double quote (character 34), less-than, greater-than, bar. *)
Definition ILLEGAL_CHARS : string :=
  "\/:*?" +:+ String "034"%char "<>|".

(** [safe_filename(name)]: one [replace] per illegal character, in order. *)
Definition safe_filename (name : string) : string :=
  fold_left (fun name ch => PyStr.replace ch "_" name)
            (list_ascii_of_string ILLEGAL_CHARS) name.


(** ** Exceptions

    The exception classes the handlers of [download_file] tell apart.
    [HTTPError] is a subclass of [URLError]; both, like every [Exception]
    here, are instances of [Exception]; [BaseException] stands for the
    instances that are not ([KeyboardInterrupt], [SystemExit]). *)

Inductive exn : Type :=
| HTTPError (code : Z) (msg : string)
| URLError (reason : string)
| Exception (kind : string) (str : string)
| BaseException (kind : string) (str : string).

Inductive exn_class : Type := cls_HTTPError | cls_URLError | cls_Exception.

Definition isinstance (e : exn) (c : exn_class) : bool :=
  match c, e with
  | cls_HTTPError, HTTPError _ _ => true
  | cls_HTTPError, _ => false
  | cls_URLError, (HTTPError _ _ | URLError _) => true
  | cls_URLError, _ => false
  | cls_Exception, BaseException _ _ => false
  | cls_Exception, _ => true
  end.

(** [str(e)]. *)
Definition exn_str (e : exn) : string :=
  match e with
  | HTTPError code msg => "HTTP Error " +:+ PyStr.of_Z code +:+ ": " +:+ msg
  | URLError reason => "<urlopen error " +:+ reason +:+ ">"
  | Exception _ s => s
  | BaseException _ s => s
  end.

Inductive result (A : Type) : Type :=
| Ret (a : A)
| Raise (e : exn).
Arguments Ret {A} a.
Arguments Raise {A} e.

(** ** The environment *)

(** What the program does to the outside, in the order it does it. *)
Inductive event : Type :=
| EvMakedirs (path : string)
| EvUrlopen (url : string) (headers : list (string * string)) (timeout : Z)
| EvOpenWb (path : string)
| EvWrite (path : string) (data : list Byte.byte)
| EvSleep (seconds : Q)
| EvPrint (line : string).

(** The answer to one [urlopen(...)] followed by [resp.read()]. *)
Inductive fetch : Type :=
| OpenRaises (e : exn)
| ReadRaises (e : exn)
| Body (data : list Byte.byte).

(** Everything the program does not decide: each oracle sees the history of
    events so far.  A fault of [write_fault] also tells how many bytes
    reached the file before the error, and [makedirs_left] how many of the
    directories of a failing [os.makedirs], counted from the outermost,
    exist when it raises. *)
Record world : Type := {
  abspath : string -> string;
  makedirs_fault : list event -> string -> option exn;
  makedirs_left : list event -> string -> nat;
  request_fault : string -> option exn;
  net : list event -> string -> fetch;
  open_fault : list event -> string -> option exn;
  write_fault : list event -> string -> list Byte.byte -> option (exn * nat);
}.

(** The file store as the program affects it: the directories
    [os.makedirs] has seen to (created, or found in place), the contents of
    the files it has opened for writing, and the history of events. *)
Record state : Type := {
  dirs : gset string;
  files : gmap string (list Byte.byte);
  trace : list event;
}.

Definition emit (ev : event) (st : state) : state :=
  {| dirs := dirs st; files := files st; trace := trace st ++ [ev] |}.

Definition add_dirs (ds : list string) (st : state) : state :=
  {| dirs := list_to_set ds ∪ dirs st; files := files st; trace := trace st |}.

(** A successful [os.makedirs(d)]: [d] and the directories above it. *)
Definition add_dir (d : string) (st : state) : state :=
  add_dirs (os_path.ancestors d) st.

Definition set_file (p : string) (data : list Byte.byte) (st : state) : state :=
  {| dirs := dirs st; files := <[p := data]> (files st); trace := trace st |}.

(** ** The monad of effects: state and exceptions *)

Definition M (A : Type) : Type := state -> result A * state.

Definition ret {A} (a : A) : M A := fun st => (Ret a, st).

Definition raise {A} (e : exn) : M A := fun st => (Raise e, st).

Definition bind {A B} (m : M A) (k : A -> M B) : M B :=
  fun st =>
    match m st with
    | (Ret a, st') => k a st'
    | (Raise e, st') => (Raise e, st')
    end.

Notation "x <- m ;; k" := (bind m (fun x => k))
  (at level 20, m at level 99, k at level 200, only parsing).
Notation "' pat <- m ;; k" := (bind m (fun x => match x with pat => k end))
  (at level 20, pat pattern, m at level 99, k at level 200, only parsing).
Notation "m ;; k" := (bind m (fun _ => k))
  (at level 100, k at level 200, only parsing, right associativity).

(** [try: body except C1 as e: h1 except C2 as e: h2 ...]: the first clause
    whose class the exception is an instance of handles it; an exception no
    clause matches propagates. *)
Definition try_except {A} (body : M A) (handlers : list (exn_class * (exn -> M A))) : M A :=
  fun st =>
    match body st with
    | (Ret a, st') => (Ret a, st')
    | (Raise e, st') =>
        match List.find (fun h => isinstance e (fst h)) handlers with
        | Some h => snd h e st'
        | None => (Raise e, st')
        end
    end.

(** [for x in items: s = body(x, s)]. *)
Fixpoint for_each {A S} (body : A -> S -> M S) (items : list A) (s : S) : M S :=
  match items with
  | [] => ret s
  | x :: xs => s' <- body x s ;; for_each body xs s'
  end.

(** [a, b, c = t] and [a, b, c, d = t]. *)
Definition unpack3 (t : tuple) : M (string * string * string) :=
  match t with
  | [a; b; c] => ret (a, b, c)
  | _ :: _ :: _ :: _ :: _ =>
      raise (Exception "ValueError" "too many values to unpack (expected 3)")
  | _ =>
      raise (Exception "ValueError"
               ("not enough values to unpack (expected 3, got "
                  +:+ PyStr.of_nat (length t) +:+ ")"))
  end.

Definition unpack4 (t : tuple) : M (string * string * string * string) :=
  match t with
  | [a; b; c; d] => ret (a, b, c, d)
  | _ :: _ :: _ :: _ :: _ :: _ =>
      raise (Exception "ValueError" "too many values to unpack (expected 4)")
  | _ =>
      raise (Exception "ValueError"
               ("not enough values to unpack (expected 4, got "
                  +:+ PyStr.of_nat (length t) +:+ ")"))
  end.

(** [f"{n / 1024:.1f}"] for a byte count [n]: [n / 1024] is exact in
    binary floating point (for [n] below 2^53), and the format rounds it to
    the nearest tenth, ties to even. *)
Definition format_kb (n : nat) : string :=
  let q := (10 * Z.of_nat n / 1024)%Z in
  let r := (10 * Z.of_nat n mod 1024)%Z in
  let t := (if (512 <? r)%Z || ((r =? 512)%Z && Z.odd q) then q + 1 else q)%Z in
  PyStr.of_Z (t / 10) +:+ "." +:+ PyStr.of_Z (t mod 10).

(** The argument of every [time.sleep] of the script: the literal [0.3]. *)
Definition SLEEP_SECONDS : Q := 3 # 10.

Definition nl : string := String "010"%char EmptyString.

Section Effects.

Context (w : world).

(** [print(line)]. *)
Definition print (line : string) : M unit :=
  fun st => (Ret tt, emit (EvPrint line) st).

(** [time.sleep(seconds)]. *)
Definition time_sleep (seconds : Q) : M unit :=
  fun st => (Ret tt, emit (EvSleep seconds) st).

(** [os.makedirs(d, exist_ok=True)]. *)
Definition os_makedirs (d : string) : M unit :=
  fun st =>
    let st1 := emit (EvMakedirs d) st in
    match makedirs_fault w (trace st) d with
    | Some e =>
        (Raise e, add_dirs (firstn (makedirs_left w (trace st) d) (os_path.ancestors d)) st1)
    | None => (Ret tt, add_dir d st1)
    end.

(** [urllib.request.Request(url, headers=headers)]: a pure constructor
    that rejects some urls. *)
Definition Request (url : string) (headers : list (string * string))
  : M (string * list (string * string)) :=
  match request_fault w url with
  | Some e => raise e
  | None => ret (url, headers)
  end.

(** [with urllib.request.urlopen(req, timeout=t) as resp: data = resp.read()]. *)
Definition urlopen_read (req : string * list (string * string)) (timeout : Z)
  : M (list Byte.byte) :=
  fun st =>
    let st1 := emit (EvUrlopen (fst req) (snd req) timeout) st in
    match net w (trace st) (fst req) with
    | OpenRaises e => (Raise e, st1)
    | ReadRaises e => (Raise e, st1)
    | Body data => (Ret data, st1)
    end.

(** [with open(p, "wb") as f: f.write(data)]: opening creates or
    truncates the file, writing fills it. *)
Definition open_write (p : string) (data : list Byte.byte) : M unit :=
  fun st =>
    let st1 := emit (EvOpenWb p) st in
    match open_fault w (trace st) p with
    | Some e => (Raise e, st1)
    | None =>
        let st2 := emit (EvWrite p data) (set_file p [] st1) in
        match write_fault w (trace st1) p data with
        | Some (e, k) => (Raise e, set_file p (firstn k data) st2)
        | None => (Ret tt, set_file p data st2)
        end
    end.

(** The body of the [try] of [download_file]. *)
Definition try_body (req : string * list (string * string)) (dest_path : string)
  : M (bool * string) :=
  data <- urlopen_read req 120 ;;
  open_write dest_path data ;;
  ret (true, format_kb (length data) +:+ " KB").

(** Its three [except] clauses, in order. *)
Definition except_clauses : list (exn_class * (exn -> M (bool * string))) :=
  [ (cls_HTTPError,
      fun e => match e with
               | HTTPError code _ => ret (false, "HTTP " +:+ PyStr.of_Z code)
               | _ => raise e
               end);
    (cls_URLError,
      fun e => match e with
               | URLError reason => ret (false, reason)
               | _ => raise e
               end);
    (cls_Exception, fun e => ret (false, exn_str e)) ].

(** [download_file(url, dest_path)]. *)
Definition download_file (url dest_path : string) : M (bool * string) :=
  os_makedirs (os_path.dirname dest_path) ;;
  req <- Request url HEADERS ;;
  try_except (try_body req dest_path) except_clauses.

(** [print_result(label, ok, msg)].  The slice [label[:72]] and the
    padding [:<72] count characters; [PyStr.take] and [PyStr.ljust] count
    the bytes of the string, which is the same on a label of ASCII
    characters, as all labels of the four lists are. *)
Definition print_result (label : string) (ok : bool) (msg : string) : M unit :=
  let status := if ok then "OK" else "FAIL" in
  print ("  [" +:+ PyStr.ljust 4 status +:+ "]  "
           +:+ PyStr.ljust 72 (PyStr.take 72 label) +:+ "  " +:+ msg).

End Effects.

(** ** Main download logic *)

(** The three local variables of [main] that the loops update. *)
Record locals : Type := {
  success_count : nat;
  fail_count : nat;
  failures : list (string * string * string);
}.

Definition locals0 : locals :=
  {| success_count := 0; fail_count := 0; failures := [] |}.

(** The [if ok: ... else: ...] that ends every loop body. *)
Definition tally (ok : bool) (record : string * string * string) (l : locals) : locals :=
  if ok then
    {| success_count := success_count l + 1;
       fail_count := fail_count l;
       failures := failures l |}
  else
    {| success_count := success_count l;
       fail_count := fail_count l + 1;
       failures := failures l ++ [record] |}.

Section Main.

Context (w : world).

(** The body of the loop over [ARMY_FILES]. *)
Definition army_body (item : tuple) (l : locals) : M locals :=
  '(category, filename, ext) <- unpack3 item ;;
  let encoded := urllib_parse.quote (category +:+ "/" +:+ filename +:+ "." +:+ ext) in
  let url := ARMY_BASE +:+ "/" +:+ encoded in
  let out_path := os_path.join OUTPUT_DIR
                    ["Army"; safe_filename category; safe_filename filename +:+ "." +:+ ext] in
  '(ok, msg) <- download_file w url out_path ;;
  let label := "Army/" +:+ category +:+ "/" +:+ filename +:+ "." +:+ ext in
  print_result label ok msg ;;
  let l' := tally ok (label, url, msg) l in
  time_sleep SLEEP_SECONDS ;;
  ret l'.

(** The body of the loop over [AF_FILES]. *)
Definition af_body (item : tuple) (l : locals) : M locals :=
  '(category, filename, ext) <- unpack3 item ;;
  let encoded_name := urllib_parse.quote (filename +:+ "." +:+ ext) in
  let url := AF_BASE +:+ "/" +:+ encoded_name in
  let out_path := os_path.join OUTPUT_DIR
                    ["AirForce"; safe_filename category; safe_filename filename +:+ "." +:+ ext] in
  '(ok, msg) <- download_file w url out_path ;;
  let label := "AF/" +:+ category +:+ "/" +:+ filename +:+ "." +:+ ext in
  print_result label ok msg ;;
  let l' := tally ok (label, url, msg) l in
  time_sleep SLEEP_SECONDS ;;
  ret l'.

(** The body of the loop over [DW_FILES]. *)
Definition dw_body (item : tuple) (l : locals) : M locals :=
  '(category, path, filename, ext) <- unpack4 item ;;
  let url := DW_BASE +:+ "/" +:+ path +:+ "/" +:+ filename +:+ "." +:+ ext in
  let out_path := os_path.join OUTPUT_DIR
                    ["DefenseWide"; safe_filename category; safe_filename filename +:+ "." +:+ ext] in
  '(ok, msg) <- download_file w url out_path ;;
  let label := "DW/" +:+ category +:+ "/" +:+ filename +:+ "." +:+ ext in
  print_result label ok msg ;;
  let l' := tally ok (label, url, msg) l in
  time_sleep SLEEP_SECONDS ;;
  ret l'.

(** The body of the loop over [DOD_SUMMARY]. *)
Definition dod_body (item : tuple) (l : locals) : M locals :=
  '(url, subfolder, fname) <- unpack3 item ;;
  let out_path := os_path.join OUTPUT_DIR [subfolder; fname] in
  '(ok, msg) <- download_file w url out_path ;;
  print_result fname ok msg ;;
  let l' := tally ok (fname, url, msg) l in
  time_sleep SLEEP_SECONDS ;;
  ret l'.

(** The banner [main] prints first. *)
Definition banner : M unit :=
  print (PyStr.repeat "=" 80) ;;
  print "FY2026 DoD Budget — Machine-Readable File Downloader" ;;
  print "Covers: Army, Air Force, Space Force, Defense-Wide, DoD Summary" ;;
  print "Note:   Navy is PDF-only and not included" ;;
  print (PyStr.repeat "=" 80).

(** The four loops of [main], from the initialisation of the counters to
    the last [time.sleep]; the result is the value of the locals. *)
Definition download_all (army af dw dod : list tuple) : M locals :=
  let l := locals0 in
  print (nl +:+ "[1/4] Army (" +:+ PyStr.of_nat (length army) +:+ " files)...") ;;
  l <- for_each army_body army l ;;
  print (nl +:+ "[2/4] Air Force & Space Force (" +:+ PyStr.of_nat (length af) +:+ " files)...") ;;
  l <- for_each af_body af l ;;
  print (nl +:+ "[3/4] Defense-Wide (" +:+ PyStr.of_nat (length dw) +:+ " files)...") ;;
  l <- for_each dw_body dw l ;;
  print (nl +:+ "[4/4] DoD Summary (" +:+ PyStr.of_nat (length dod) +:+ " files)...") ;;
  l <- for_each dod_body dod l ;;
  ret l.

(** The three lines printed for one entry of [failures]. *)
Definition print_failure (f : string * string * string) (_ : unit) : M unit :=
  let '(label, url, msg) := f in
  print ("  FAIL  " +:+ label) ;;
  print ("        URL: " +:+ url) ;;
  print ("        Reason: " +:+ msg).

(** The summary that ends [main]. *)
Definition report (l : locals) : M unit :=
  let total := success_count l + fail_count l in
  print (nl +:+ PyStr.repeat "=" 80) ;;
  print ("Done. " +:+ PyStr.of_nat (success_count l) +:+ "/" +:+ PyStr.of_nat total
           +:+ " files downloaded.") ;;
  print ("Output directory: " +:+ abspath w OUTPUT_DIR +:+ "/") ;;
  match failures l with
  | _ :: _ =>
      print (nl +:+ "Failed (" +:+ PyStr.of_nat (fail_count l) +:+ "):") ;;
      for_each print_failure (failures l) tt
  | [] => print (nl +:+ "All files downloaded successfully!")
  end.

(** [main()], with the four module-level lists as parameters. *)
Definition main_with (army af dw dod : list tuple) : M unit :=
  banner ;;
  l <- download_all army af dw dod ;;
  report l.

Definition main : M unit := main_with ARMY_FILES AF_FILES DW_FILES DOD_SUMMARY.

End Main.

(** ** Vocabulary of the properties *)

(** What one round of a loop hands to [download_file] and to the report:
    the request url, the destination path and the label. *)
Record job : Type := {
  job_url : string;
  job_path : string;
  job_label : string;
}.

Definition army_job (category filename ext : string) : job :=
  {| job_url := ARMY_BASE +:+ "/"
                  +:+ urllib_parse.quote (category +:+ "/" +:+ filename +:+ "." +:+ ext);
     job_path := os_path.join OUTPUT_DIR
                   ["Army"; safe_filename category; safe_filename filename +:+ "." +:+ ext];
     job_label := "Army/" +:+ category +:+ "/" +:+ filename +:+ "." +:+ ext |}.

Definition af_job (category filename ext : string) : job :=
  {| job_url := AF_BASE +:+ "/" +:+ urllib_parse.quote (filename +:+ "." +:+ ext);
     job_path := os_path.join OUTPUT_DIR
                   ["AirForce"; safe_filename category; safe_filename filename +:+ "." +:+ ext];
     job_label := "AF/" +:+ category +:+ "/" +:+ filename +:+ "." +:+ ext |}.

Definition dw_job (category path filename ext : string) : job :=
  {| job_url := DW_BASE +:+ "/" +:+ path +:+ "/" +:+ filename +:+ "." +:+ ext;
     job_path := os_path.join OUTPUT_DIR
                   ["DefenseWide"; safe_filename category; safe_filename filename +:+ "." +:+ ext];
     job_label := "DW/" +:+ category +:+ "/" +:+ filename +:+ "." +:+ ext |}.

Definition dod_job (url subfolder fname : string) : job :=
  {| job_url := url;
     job_path := os_path.join OUTPUT_DIR [subfolder; fname];
     job_label := fname |}.

(** The i-th component of a tuple. *)
Definition item (i : nat) (t : tuple) : string := nth i t EmptyString.

Definition army_job_of (t : tuple) : job := army_job (item 0 t) (item 1 t) (item 2 t).
Definition af_job_of (t : tuple) : job := af_job (item 0 t) (item 1 t) (item 2 t).
Definition dw_job_of (t : tuple) : job := dw_job (item 0 t) (item 1 t) (item 2 t) (item 3 t).
Definition dod_job_of (t : tuple) : job := dod_job (item 0 t) (item 1 t) (item 2 t).

(** The jobs of four manifests, in the order of the four loops. *)
Definition jobs_of (army af dw dod : list tuple) : list job :=
  map army_job_of army ++ map af_job_of af ++ map dw_job_of dw ++ map dod_job_of dod.

Definition all_jobs : list job := jobs_of ARMY_FILES AF_FILES DW_FILES DOD_SUMMARY.

(** The whole static manifest: the entries of the four lists. *)
Definition static_manifest : list tuple :=
  ARMY_FILES ++ AF_FILES ++ DW_FILES ++ DOD_SUMMARY.

(** Manifests of the arities the loops unpack. *)
Definition arity (n : nat) (l : list tuple) : Prop := Forall (fun t => length t = n) l.

Definition well_shaped (army af dw dod : list tuple) : Prop :=
  arity 3 army /\ arity 3 af /\ arity 4 dw /\ arity 3 dod.

(** Two manifests of the same shape: as many entries in each of the four
    lists, of the arities the loops unpack. *)
Definition same_shape (m1 m2 : list tuple * list tuple * list tuple * list tuple) : Prop :=
  let '(a1, f1, d1, s1) := m1 in
  let '(a2, f2, d2, s2) := m2 in
  well_shaped a1 f1 d1 s1 /\ well_shaped a2 f2 d2 s2 /\
  length a1 = length a2 /\ length f1 = length f2 /\
  length d1 = length d2 /\ length s1 = length s2.

(** The part of a loop body that no longer sees the manifest entry. *)
Definition process (w : world) (j : job) (l : locals) : M locals :=
  '(ok, msg) <- download_file w (job_url j) (job_path j) ;;
  print_result (job_label j) ok msg ;;
  time_sleep SLEEP_SECONDS ;;
  ret (tally ok (job_label j, job_url j, msg) l).

(** The four loops as one sequence of steps: a loop's opening line, then
    one fetch per entry. *)
Inductive step : Type :=
| Announce (line : string)
| Fetch (j : job).

Definition run_step (w : world) (s : step) (l : locals) : M locals :=
  match s with
  | Announce line => print line ;; ret l
  | Fetch j => process w j l
  end.

Definition announce (k : string) (name : string) (n : nat) : step :=
  Announce (nl +:+ "[" +:+ k +:+ "/4] " +:+ name +:+ " (" +:+ PyStr.of_nat n +:+ " files)...").

Definition steps_of (army af dw dod : list tuple) : list step :=
  (announce "1" "Army" (length army) :: map (fun t => Fetch (army_job_of t)) army)
  ++ (announce "2" "Air Force & Space Force" (length af)
        :: map (fun t => Fetch (af_job_of t)) af)
  ++ (announce "3" "Defense-Wide" (length dw) :: map (fun t => Fetch (dw_job_of t)) dw)
  ++ (announce "4" "DoD Summary" (length dod) :: map (fun t => Fetch (dod_job_of t)) dod).

(** The jobs among some steps, in order. *)
Definition fetched (ss : list step) : list job :=
  flat_map (fun s => match s with Fetch j => [j] | Announce _ => [] end) ss.

(** What the successive calls of [download_file] return along a run of
    steps from [st], up to the first call that raises. *)
Fixpoint outcomes (w : world) (ss : list step) (st : state) : list (job * (bool * string)) :=
  match ss with
  | [] => []
  | Announce line :: ss' => outcomes w ss' (snd (run_step w (Announce line) locals0 st))
  | Fetch j :: ss' =>
      match fst (download_file w (job_url j) (job_path j) st) with
      | Ret v => (j, v) :: outcomes w ss' (snd (run_step w (Fetch j) locals0 st))
      | Raise _ => []
      end
  end.

(** The locals after some returned calls. *)
Definition tally_all (l : locals) (outs : list (job * (bool * string))) : locals :=
  fold_left (fun l o => tally (fst (snd o)) (job_label (fst o), job_url (fst o), snd (snd o)) l)
            outs l.

(** The record [main] keeps of a call that returned [False]. *)
Definition failure_records (outs : list (job * (bool * string))) : list (string * string * string) :=
  flat_map (fun o : job * (bool * string) =>
              if fst (snd o) then []
                     else [(job_label (fst o), job_url (fst o), snd (snd o))]) outs.

(** How many of some returned calls returned [True]. *)
Definition count_ok (outs : list (job * (bool * string))) : nat :=
  length (List.filter (fun o : job * (bool * string) => fst (snd o)) outs).

(** The environment lets the call for [j] return: [os.makedirs] and
    [Request] accept its path and url, and whatever the network or the file
    system raises at it is an instance of [Exception]. *)
Definition undisturbed (w : world) (j : job) : Prop :=
  (forall h, makedirs_fault w h (os_path.dirname (job_path j)) = None)
  /\ request_fault w (job_url j) = None
  /\ (forall h e, net w h (job_url j) = OpenRaises e \/ net w h (job_url j) = ReadRaises e ->
                  isinstance e cls_Exception = true)
  /\ (forall h e, open_fault w h (job_path j) = Some e -> isinstance e cls_Exception = true)
  /\ (forall h data e k, write_fault w h (job_path j) data = Some (e, k) ->
                         isinstance e cls_Exception = true).

(** Which of some returned calls returned [True], in order. *)
Definition ok_flags (outs : list (job * (bool * string))) : list bool :=
  map (fun o : job * (bool * string) => fst (snd o)) outs.

(** The lines of the banner. *)
Definition banner_lines : list string :=
  [ PyStr.repeat "=" 80;
    "FY2026 DoD Budget — Machine-Readable File Downloader";
    "Covers: Army, Air Force, Space Force, Defense-Wide, DoD Summary";
    "Note:   Navy is PDF-only and not included";
    PyStr.repeat "=" 80 ].

(** The lines of the final summary for given locals. *)
Definition report_lines (w : world) (l : locals) : list string :=
  [ nl +:+ PyStr.repeat "=" 80;
    "Done. " +:+ PyStr.of_nat (success_count l) +:+ "/"
      +:+ PyStr.of_nat (success_count l + fail_count l) +:+ " files downloaded.";
    "Output directory: " +:+ abspath w OUTPUT_DIR +:+ "/" ]
  ++ match failures l with
     | [] => [nl +:+ "All files downloaded successfully!"]
     | _ :: _ =>
         (nl +:+ "Failed (" +:+ PyStr.of_nat (fail_count l) +:+ "):")
         :: flat_map (fun f => [ "  FAIL  " +:+ fst (fst f);
                                 "        URL: " +:+ snd (fst f);
                                 "        Reason: " +:+ snd f ]) (failures l)
     end.

(** Projections of a history. *)
Definition is_call (ev : event) : bool :=
  match ev with
  | EvMakedirs _ | EvUrlopen _ _ _ => true
  | _ => false
  end.

Definition is_paced (ev : event) : bool :=
  match ev with
  | EvUrlopen _ _ _ | EvSleep _ => true
  | _ => false
  end.

Definition requests (tr : list event) : list string :=
  flat_map (fun ev => match ev with EvUrlopen u _ _ => [u] | _ => [] end) tr.

Definition written_paths (tr : list event) : list string :=
  flat_map (fun ev => match ev with EvOpenWb p | EvWrite p _ => [p] | _ => [] end) tr.

Definition printed (tr : list event) : list string :=
  flat_map (fun ev => match ev with EvPrint s => [s] | _ => [] end) tr.

Definition sleeps (tr : list event) : list Q :=
  flat_map (fun ev => match ev with EvSleep q => [q] | _ => [] end) tr.

(** The calls one invocation of [download_file] makes when nothing stops
    it before the request, and the request followed by the pause. *)
Definition calls_of (j : job) : list event :=
  [EvMakedirs (os_path.dirname (job_path j)); EvUrlopen (job_url j) HEADERS 120].

Definition paced_of (j : job) : list event :=
  [EvUrlopen (job_url j) HEADERS 120; EvSleep SLEEP_SECONDS].

(** The message of the handler that catches [e]. *)
Definition reason_of (e : exn) : string :=
  match e with
  | HTTPError code _ => "HTTP " +:+ PyStr.of_Z code
  | URLError reason => reason
  | _ => exn_str e
  end.

(** The characters [safe_filename] removes. *)
Definition illegal (c : ascii) : bool := PyStr.contains c ILLEGAL_CHARS.

(** What [safe_filename] does to one character. *)
Definition sanitize (c : ascii) : ascii := if illegal c then "_"%char else c.

(** A relative path that stays below its first component [root]: at least
    one more component, none of them empty, [.] or [..]. *)
Definition plain_component (c : string) : bool :=
  negb (String.eqb c EmptyString) && negb (String.eqb c ".") && negb (String.eqb c "..").

Definition strictly_inside (root path : string) : bool :=
  match PyStr.split os_path.sep path with
  | r :: c :: cs => String.eqb r root && forallb plain_component (c :: cs)
  | _ => false
  end.

(** The components of a path below [OUTPUT_DIR]. *)
Definition below_output_dir (path : string) : list string :=
  tl (PyStr.split os_path.sep path).

(** ** Sample environments *)

Definition state0 : state := {| dirs := ∅; files := ∅; trace := [] |}.

(** [os.makedirs] of the empty path raises [FileNotFoundError]. *)
Definition posix_makedirs_fault (_ : list event) (d : string) : option exn :=
  if String.eqb d EmptyString
  then Some (Exception "FileNotFoundError" "[Errno 2] No such file or directory: ''")
  else None.

(** [Request] raises [ValueError] on a url that does not start with a
    scheme: one or more characters other than [/] and [:], then [:]. *)
Fixpoint scheme_tail (s : string) : bool :=
  match s with
  | EmptyString => false
  | String c s' =>
      if Ascii.eqb c ":" then true
      else if Ascii.eqb c "/" then false
      else scheme_tail s'
  end.

Definition has_scheme (url : string) : bool :=
  match url with
  | EmptyString => false
  | String c s' => negb (Ascii.eqb c ":") && negb (Ascii.eqb c "/") && scheme_tail s'
  end.

Definition url_scheme_fault (url : string) : option exn :=
  if has_scheme url then None
  else Some (Exception "ValueError" ("unknown url type: '" +:+ url +:+ "'")).

(** A machine with a writable working directory and the network [n]. *)
Definition machine (n : list event -> string -> fetch) : world :=
  {| abspath := fun p => "/home/user/" +:+ p;
     makedirs_fault := posix_makedirs_fault;
     makedirs_left := fun _ _ => 0;
     request_fault := url_scheme_fault;
     net := n;
     open_fault := fun _ _ => None;
     write_fault := fun _ _ _ => None |}.

(** Every url is served (the body is the url itself, as bytes). *)
Definition serve_all : world :=
  machine (fun _ url => Body (list_byte_of_string url)).

(** Every request is answered 404. *)
Definition serve_none : world :=
  machine (fun _ _ => OpenRaises (HTTPError 404 "Not Found")).

(** Only the [.xml] files are served. *)
Definition serve_xml : world :=
  machine (fun _ url =>
             if PyStr.endswith "l" url then Body (list_byte_of_string url)
             else OpenRaises (HTTPError 404 "Not Found")).

(** The user interrupts every transfer while the body is being read. *)
Definition interrupted : world :=
  machine (fun _ _ => ReadRaises (BaseException "KeyboardInterrupt" EmptyString)).


(** ** Vocabulary of the further properties *)

(** The line [print_result] prints. *)
Definition result_line (label : string) (ok : bool) (msg : string) : string :=
  (if ok then "  [OK  ]  " else "  [FAIL]  ")
    +:+ PyStr.take 72 label +:+ PyStr.repeat " " (72 - String.length label)
    +:+ "  " +:+ msg.


(** The characters that [safe_filename] sends to the underscore. *)
Definition masked (c : ascii) : bool := illegal c || Ascii.eqb c "_".

(** Two names that agree except where both have a masked character. *)
Fixpoint same_when_safe (s1 s2 : string) : bool :=
  match s1, s2 with
  | EmptyString, EmptyString => true
  | String c1 r1, String c2 r2 =>
      (Ascii.eqb c1 c2 || (masked c1 && masked c2)) && same_when_safe r1 r2
  | _, _ => false
  end.

(** The characters a percent-encoded string is made of. *)
Definition url_safe (c : ascii) : bool :=
  urllib_parse.always_safe c || Ascii.eqb c "/" || Ascii.eqb c "%".

(** Every character of [s] satisfies [p]. *)
Fixpoint all_chars (p : ascii -> bool) (s : string) : bool :=
  match s with
  | EmptyString => true
  | String c s' => p c && all_chars p s'
  end.

(** A string of ASCII characters only.  Strings here are the UTF-8 bytes
    of the Python [str]; on such a string every byte is one character, so
    that slicing, padding and [len] count the same in both. *)
Definition ascii_only (s : string) : bool :=
  all_chars (fun c => (nat_of_ascii c <? 128)%nat) s.

(** The character a [%XX] triple stands for. *)
Definition hex_value (c : ascii) : nat :=
  let n := nat_of_ascii c in
  if (n <? 58)%nat then n - 48 else n - 55.

Definition unpercent (s : string) : ascii :=
  match s with
  | String _ (String h (String l _)) => ascii_of_nat (16 * hex_value h + hex_value l)
  | _ => Ascii.zero
  end.

(** The disk fills up after ten bytes of every file. *)
Definition disk_full : world :=
  {| abspath := fun p => "/home/user/" +:+ p;
     makedirs_fault := posix_makedirs_fault;
     makedirs_left := fun _ _ => 0;
     request_fault := url_scheme_fault;
     net := fun _ url => Body (list_byte_of_string url);
     open_fault := fun _ _ => None;
     write_fault := fun _ _ _ =>
       Some (Exception "OSError" "[Errno 28] No space left on device", 10) |}.

(** What a run may have done to the file store when it only saves to the
    paths [ps]: other files are as before, no file and no directory has
    disappeared, and a new directory is the parent of one of [ps]. *)
Definition only_saved_to (ps : list string) (st st' : state) : Prop :=
  (forall p, ~ In p ps -> files st' !! p = files st !! p)
  /\ (forall p, is_Some (files st !! p) -> is_Some (files st' !! p))
  /\ dirs st ⊆ dirs st'
  /\ (forall d, d ∈ dirs st' ->
        d ∈ dirs st \/ exists p, In p ps /\ In d (os_path.ancestors (os_path.dirname p))).

(** * Properties *)

#[local] Arguments isinstance : simpl never.

(** ** Sanity checks of the embedding on concrete inputs *)

Example safe_filename_ex : safe_filename "a/b:c O&M" = "a_b_c O&M".
Proof. reflexivity. Qed.
Example quote_ex : urllib_parse.quote "O&M/Overview_(Part 1).json" = "O%26M/Overview_%28Part%201%29.json".
Proof. reflexivity. Qed.
Example dirname_ex : os_path.dirname "fy2026_budget/Army/rdte/x.xml" = "fy2026_budget/Army/rdte".
Proof. reflexivity. Qed.
Example dirname_ex2 : os_path.dirname "x.xml" = EmptyString.
Proof. reflexivity. Qed.
Example ancestors_ex :
  os_path.ancestors "fy2026_budget/Army/rdte"
  = ["fy2026_budget"; "fy2026_budget/Army"; "fy2026_budget/Army/rdte"].
Proof. reflexivity. Qed.
Example ancestors_ex2 : os_path.ancestors "/srv/out" = ["/"; "/srv"; "/srv/out"].
Proof. reflexivity. Qed.
Example join_ex : os_path.join OUTPUT_DIR ["Army"; "rdte"; "x.xml"] = "fy2026_budget/Army/rdte/x.xml".
Proof. reflexivity. Qed.
Example format_kb_ex :
  map format_kb [0; 256; 768; 1024; 1075; 1076; 1536]
  = ["0.0"; "0.2"; "0.8"; "1.0"; "1.0"; "1.1"; "1.5"].
Proof. vm_compute. reflexivity. Qed.
Example of_nat_ex : PyStr.of_nat 98 = "98" /\ PyStr.of_nat 0 = "0" /\ PyStr.of_Z 404 = "404".
Proof. repeat split; reflexivity. Qed.

(** ** [safe_filename] *)

Section SafeFilename.

Lemma replace_as_map old s :
  PyStr.replace old "_" s
  = PyStr.map_chars (fun c => if Ascii.eqb c old then "_"%char else c) s.
Proof.
  induction s as [|c s IH]; simpl; [reflexivity|].
  rewrite IH. destruct (Ascii.eqb c old); reflexivity.
Qed.

Lemma map_chars_compose f g s :
  PyStr.map_chars g (PyStr.map_chars f s) = PyStr.map_chars (fun c => g (f c)) s.
Proof. induction s as [|c s IH]; simpl; [reflexivity | now rewrite IH]. Qed.

Lemma map_chars_ext f g s :
  (forall c, f c = g c) -> PyStr.map_chars f s = PyStr.map_chars g s.
Proof. intros E. induction s as [|c s IH]; simpl; [reflexivity | now rewrite E, IH]. Qed.

Lemma map_chars_length f s : String.length (PyStr.map_chars f s) = String.length s.
Proof. induction s as [|c s IH]; simpl; [reflexivity | now rewrite IH]. Qed.

Lemma map_chars_get f s i :
  String.get i (PyStr.map_chars f s) = option_map f (String.get i s).
Proof.
  revert i. induction s as [|c s IH]; intros i; simpl; [reflexivity|].
  destruct i; simpl; [reflexivity | apply IH].
Qed.

(** The nine successive replacements amount to one pass of [sanitize]. *)
Lemma safe_filename_as_map s : safe_filename s = PyStr.map_chars sanitize s.
Proof.
  unfold safe_filename, ILLEGAL_CHARS. simpl.
  rewrite !replace_as_map, !map_chars_compose.
  apply map_chars_ext.
  intros [[] [] [] [] [] [] [] []]; reflexivity.
Qed.

Lemma sanitize_legal c : illegal (sanitize c) = false.
Proof. destruct c as [[] [] [] [] [] [] [] []]; reflexivity. Qed.

Lemma sanitize_idem c : sanitize (sanitize c) = sanitize c.
Proof. unfold sanitize at 1. now rewrite sanitize_legal. Qed.

Lemma sanitize_keeps c : illegal c = false -> sanitize c = c.
Proof. unfold sanitize. now intros ->. Qed.

Lemma contains_map_sanitize c s :
  illegal c = true -> PyStr.contains c (PyStr.map_chars sanitize s) = false.
Proof.
  intros Hc. induction s as [|a s IH]; simpl; [reflexivity|].
  rewrite IH, orb_false_r.
  destruct (Ascii.eqb_spec (sanitize a) c) as [E|]; [|reflexivity].
  rewrite <- E, sanitize_legal in Hc. discriminate.
Qed.

(** The characters the loop runs over, one by one: backslash, slash,
    colon, star, question mark, double quote, less-than, greater-than,
    bar. *)
Lemma illegal_nine c :
  illegal c = true <-> In c ["\"; "/"; ":"; "*"; "?"; "034"; "<"; ">"; "|"]%char.
Proof.
  assert (E : illegal c = existsb (Ascii.eqb c) ["\"; "/"; ":"; "*"; "?"; "034"; "<"; ">"; "|"]%char).
  { destruct c as [[] [] [] [] [] [] [] []]; reflexivity. }
  rewrite E, existsb_exists. split.
  - intros (x & Hx & ->%Ascii.eqb_eq). exact Hx.
  - intros H. exists c. split; [exact H | apply Ascii.eqb_refl].
Qed.

Lemma legal_nine c :
  illegal c = false <-> ~ In c ["\"; "/"; ":"; "*"; "?"; "034"; "<"; ">"; "|"]%char.
Proof.
  rewrite <- illegal_nine. destruct (illegal c); split; intros H; congruence.
Qed.

Lemma masked_ten c :
  masked c = true <-> In c ["\"; "/"; ":"; "*"; "?"; "034"; "<"; ">"; "|"; "_"]%char.
Proof.
  assert (E : masked c = existsb (Ascii.eqb c) ["\"; "/"; ":"; "*"; "?"; "034"; "<"; ">"; "|"; "_"]%char).
  { destruct c as [[] [] [] [] [] [] [] []]; reflexivity. }
  rewrite E, existsb_exists. split.
  - intros (x & Hx & ->%Ascii.eqb_eq). exact Hx.
  - intros H. exists c. split; [exact H | apply Ascii.eqb_refl].
Qed.

End SafeFilename.

(** C8. For every string [s], [safe_filename s] contains none of the nine
    characters backslash, slash, colon, star, question mark, double quote,
    less-than, greater-than and bar; it has the length of [s]; it keeps
    every character of [s] other than those nine where it is; and applying
    [safe_filename] twice is the same as applying it once. *)
Theorem safe_filename_spec : forall s : string,
  let nine := ["\"; "/"; ":"; "*"; "?"; "034"; "<"; ">"; "|"]%char in
  (forall c, In c nine -> PyStr.contains c (safe_filename s) = false)
  /\ String.length (safe_filename s) = String.length s
  /\ (forall i c, String.get i s = Some c -> ~ In c nine ->
                  String.get i (safe_filename s) = Some c)
  /\ safe_filename (safe_filename s) = safe_filename s.
Proof.
  intros s nine. subst nine. rewrite !safe_filename_as_map. repeat split.
  - intros c Hc. now apply contains_map_sanitize, illegal_nine.
  - apply map_chars_length.
  - intros i c Hi Hc. rewrite map_chars_get, Hi. simpl.
    now rewrite sanitize_keeps by now apply legal_nine.
  - rewrite map_chars_compose. apply map_chars_ext, sanitize_idem.
Qed.

(** ** [download_file] *)

Section DownloadFile.

Context (w : world).

Lemma ancestors_upto_last n d : exists above, os_path.ancestors_upto n d = above ++ [d].
Proof.
  destruct n as [|n]; simpl; [now exists []|].
  destruct (_ || _); [now exists [] | eauto].
Qed.

(** [os.makedirs(d)] sees to [d] itself. *)
Lemma ancestors_self d : In d (os_path.ancestors d).
Proof.
  unfold os_path.ancestors.
  destruct (ancestors_upto_last (String.length d) d) as [above ->].
  apply in_or_app. right. now left.
Qed.

Lemma add_dir_self d st : d ∈ dirs (add_dir d st).
Proof.
  unfold add_dir, add_dirs. simpl. apply elem_of_union_l, elem_of_list_to_set.
  apply list_elem_of_In, ancestors_self.
Qed.

(** Which clause catches what: the first matching clause handles every
    instance of [Exception] and yields its reason; anything else
    propagates. *)
Lemma except_clauses_catch (e : exn) (st : state) :
  match List.find (fun h => isinstance e (fst h)) except_clauses with
  | Some h => snd h e st
  | None => (Raise e, st)
  end
  = if isinstance e cls_Exception then (Ret (false, reason_of e), st) else (Raise e, st).
Proof. destruct e; reflexivity. Qed.

Lemma try_except_clauses req dest st :
  try_except (try_body w req dest) except_clauses st
  = match try_body w req dest st with
    | (Ret v, st') => (Ret v, st')
    | (Raise e, st') =>
        if isinstance e cls_Exception then (Ret (false, reason_of e), st') else (Raise e, st')
    end.
Proof.
  unfold try_except. destruct (try_body w req dest st) as [[v|e] st']; [reflexivity|].
  apply except_clauses_catch.
Qed.

(** [download_file] once [os.makedirs] and [Request] have let it through. *)
Lemma download_file_reaches_try url dest st :
  makedirs_fault w (trace st) (os_path.dirname dest) = None ->
  request_fault w url = None ->
  download_file w url dest st
  = try_except (try_body w (url, HEADERS) dest) except_clauses
      (add_dir (os_path.dirname dest) (emit (EvMakedirs (os_path.dirname dest)) st)).
Proof.
  intros Hmk Hreq. unfold download_file, bind, os_makedirs, Request.
  rewrite Hmk, Hreq. reflexivity.
Qed.

(** The events of one call: a non-empty prefix of
    makedirs, urlopen, open, write; at least the first two once the call
    returns. *)
Lemma download_file_events url dest st :
  exists n data,
    trace (snd (download_file w url dest st))
    = trace st ++ firstn n [EvMakedirs (os_path.dirname dest); EvUrlopen url HEADERS 120;
                            EvOpenWb dest; EvWrite dest data]
    /\ 1 <= n <= 4
    /\ (forall v, fst (download_file w url dest st) = Ret v -> 2 <= n).
Proof.
  unfold download_file, bind, os_makedirs, Request.
  destruct (makedirs_fault w (trace st) _) as [e|].
  { exists 1, []. simpl. repeat split; try lia. discriminate. }
  destruct (request_fault w url) as [e|]; unfold raise, ret.
  { exists 1, []. simpl. repeat split; try lia. discriminate. }
  rewrite try_except_clauses.
  unfold try_body, bind, urlopen_read, open_write, ret. simpl.
  destruct (net w _ url) as [e|e|data].
  1,2: exists 2, []; destruct (isinstance e cls_Exception); simpl;
       rewrite <- app_assoc; repeat split; try lia; reflexivity.
  destruct (open_fault w _ dest) as [e|].
  { exists 3, data. destruct (isinstance e cls_Exception); simpl;
      rewrite <- !app_assoc; repeat split; try lia; reflexivity. }
  destruct (write_fault w _ dest data) as [[e k]|].
  { exists 4, data. destruct (isinstance e cls_Exception); simpl;
      rewrite <- !app_assoc; repeat split; try lia; reflexivity. }
  exists 4, data. simpl. rewrite <- !app_assoc. repeat split; try lia; reflexivity.
Qed.

End DownloadFile.

(** C1, as the spec states it, fails: a destination without a directory
    part makes [os.makedirs] raise before the [try] is entered, and an
    exception that is not an [Exception] raised in the [try] passes all
    three clauses; both reach the caller. *)
Lemma download_file_can_raise :
  fst (download_file serve_all "https://example.org/a.xml" "a.xml" state0)
  = Raise (Exception "FileNotFoundError" "[Errno 2] No such file or directory: ''")
  /\ fst (download_file interrupted "https://example.org/a.xml" "out/a.xml" state0)
     = Raise (BaseException "KeyboardInterrupt" EmptyString).
Proof. split; vm_compute; reflexivity. Qed.

(** C1 (amended). Whenever [os.makedirs] and [Request] let the call
    through to the [try]: [download_file] returns [(True, size message)]
    exactly when the request, the read and the write all succeed; every
    instance of [Exception] raised in the [try] is caught by one clause, the
    first that matches, and becomes [(False, reason)]; and what
    [download_file] lets through to its caller is never an instance of
    [Exception]. *)
Theorem download_file_outcomes : forall (w : world) (url dest : string) (st : state),
  makedirs_fault w (trace st) (os_path.dirname dest) = None ->
  request_fault w url = None ->
  let h1 := trace st ++ [EvMakedirs (os_path.dirname dest)] in
  let h2 := h1 ++ [EvUrlopen url HEADERS 120] in
  let h3 := h2 ++ [EvOpenWb dest] in
  let st1 := add_dir (os_path.dirname dest) (emit (EvMakedirs (os_path.dirname dest)) st) in
  (forall m,
      (exists st', download_file w url dest st = (Ret (true, m), st'))
      <-> (exists data,
              net w h1 url = Body data /\ open_fault w h2 dest = None
              /\ write_fault w h3 dest data = None
              /\ m = format_kb (length data) +:+ " KB"))
  /\ (forall e st2,
         try_body w (url, HEADERS) dest st1 = (Raise e, st2) ->
         isinstance e cls_Exception = true ->
         (exists c h,
             List.find (fun h => isinstance e (fst h)) except_clauses = Some (c, h)
             /\ h e st2 = (Ret (false, reason_of e), st2))
         /\ download_file w url dest st = (Ret (false, reason_of e), st2))
  /\ (forall e st',
         download_file w url dest st = (Raise e, st') -> isinstance e cls_Exception = false).
Proof.
  intros w url dest st Hmk Hreq h1 h2 h3 st1.
  rewrite (download_file_reaches_try w url dest st Hmk Hreq), try_except_clauses.
  fold st1. repeat split.
  - (* True only if everything succeeded *)
    intros [st' H]. revert H. subst h1 h2 h3 st1.
    unfold try_body, bind, urlopen_read, open_write, ret. simpl.
    destruct (net w _ url) as [e|e|data] eqn:Hnet.
    1,2: destruct (isinstance e cls_Exception); discriminate.
    destruct (open_fault w _ dest) as [e|] eqn:Hopen.
    { destruct (isinstance e cls_Exception); discriminate. }
    destruct (write_fault w _ dest data) as [[e k]|] eqn:Hwrite.
    { destruct (isinstance e cls_Exception); discriminate. }
    intros [= <- _]. now exists data.
  - (* and whenever everything succeeded *)
    intros (data & Hnet & Hopen & Hwrite & ->). subst h1 h2 h3 st1.
    unfold try_body, bind, urlopen_read, open_write, ret. simpl.
    rewrite Hnet. simpl. rewrite Hopen, Hwrite. eauto.
  - destruct e; try discriminate; simpl; eauto.
  - rewrite H, H0. reflexivity.
  - intros e st' H.
    destruct (try_body w (url, HEADERS) dest st1) as [[v|e'] st2]; [discriminate|].
    destruct (isinstance e' cls_Exception) eqn:E; [discriminate|].
    injection H as <- _. exact E.
Qed.

(** The amended C1 at a served url: the hypotheses hold and the call
    returns [True] with the size of the 25 bytes received. *)
Lemma download_file_outcomes_witness :
  makedirs_fault serve_all (trace state0) (os_path.dirname "out/a.xml") = None
  /\ request_fault serve_all "https://example.org/a.xml" = None
  /\ exists st', download_file serve_all "https://example.org/a.xml" "out/a.xml" state0
                 = (Ret (true, "0.0 KB"), st').
Proof.
  split; [reflexivity|]. split; [reflexivity|].
  destruct (download_file_outcomes serve_all "https://example.org/a.xml" "out/a.xml" state0
              eq_refl eq_refl) as (A & _ & _).
  apply (proj2 (A "0.0 KB")).
  exists (list_byte_of_string "https://example.org/a.xml").
  repeat split; reflexivity.
Defined.

(** C2. Whenever [download_file] returns [True], the bytes it wrote to
    [dest_path] are the bytes the response body gave, unchanged: the
    destination then holds exactly them, the one write of the call carried
    exactly them, and no other file was touched. *)
Theorem download_writes_body_verbatim :
  forall (w : world) (url dest : string) (st : state) (m : string) (st' : state),
  download_file w url dest st = (Ret (true, m), st') ->
  exists data,
    net w (trace st ++ [EvMakedirs (os_path.dirname dest)]) url = Body data
    /\ files st' !! dest = Some data
    /\ (forall p, p <> dest -> files st' !! p = files st !! p)
    /\ trace st' = trace st ++ [EvMakedirs (os_path.dirname dest); EvUrlopen url HEADERS 120;
                                EvOpenWb dest; EvWrite dest data].
Proof.
  intros w url dest st m st'.
  unfold download_file, bind, os_makedirs, Request.
  destruct (makedirs_fault w (trace st) _) as [e|]; [discriminate|].
  destruct (request_fault w url) as [e|]; unfold raise, ret; [discriminate|].
  rewrite try_except_clauses.
  unfold try_body, bind, urlopen_read, open_write, ret. simpl.
  destruct (net w _ url) as [e|e|data].
  1,2: destruct (isinstance e cls_Exception); discriminate.
  destruct (open_fault w _ dest) as [e|].
  { destruct (isinstance e cls_Exception); discriminate. }
  destruct (write_fault w _ dest data) as [[e k]|].
  { destruct (isinstance e cls_Exception); discriminate. }
  intros [= _ <-]. exists data. simpl. repeat split.
  - apply lookup_insert_eq.
  - intros p Hp. rewrite !lookup_insert_ne by congruence. reflexivity.
  - rewrite <- !app_assoc. reflexivity.
Qed.

(** The hypothesis of C2 is met in a run where the url is served. *)
Lemma download_writes_body_verbatim_witness :
  exists data,
    net serve_all (trace state0 ++ [EvMakedirs (os_path.dirname "out/a.xml")])
      "https://example.org/a.xml" = Body data
    /\ files (snd (download_file serve_all "https://example.org/a.xml" "out/a.xml" state0))
         !! "out/a.xml" = Some data.
Proof.
  destruct (download_writes_body_verbatim serve_all "https://example.org/a.xml" "out/a.xml"
              state0 "0.0 KB" (snd (download_file serve_all "https://example.org/a.xml"
                                       "out/a.xml" state0)))
    as (data & Hnet & Hfile & _).
  - reflexivity.
  - exists data. split; assumption.
Defined.

(** ** The loops of [main] *)

Section Loops.

Context (w : world).

Lemma for_each_app {A S} (body : A -> S -> M S) xs ys (s : S) st :
  for_each body (xs ++ ys) s st
  = (s' <- for_each body xs s ;; for_each body ys s') st.
Proof.
  revert s st. induction xs as [|x xs IH]; intros s st; simpl; [reflexivity|].
  unfold bind in *. destruct (body x s st) as [[s1|e] st1]; [|reflexivity].
  apply IH.
Qed.

Lemma for_each_map {A B S} (f : A -> B) (body : A -> S -> M S) (body' : B -> S -> M S) xs :
  Forall (fun x => forall s st, body x s st = body' (f x) s st) xs ->
  forall s st, for_each body xs s st = for_each body' (map f xs) s st.
Proof.
  induction 1 as [|x xs Hx _ IH]; intros s st; simpl; [reflexivity|].
  unfold bind. rewrite Hx. destruct (body' (f x) s st) as [[s1|e] st1]; [apply IH|reflexivity].
Qed.

(** Each loop body is [process] on the job of its entry. *)
Lemma army_body_process t l st :
  length t = 3 -> army_body w t l st = run_step w (Fetch (army_job_of t)) l st.
Proof. destruct t as [|a [|b [|c [|? ?]]]]; try discriminate. reflexivity. Qed.

Lemma af_body_process t l st :
  length t = 3 -> af_body w t l st = run_step w (Fetch (af_job_of t)) l st.
Proof. destruct t as [|a [|b [|c [|? ?]]]]; try discriminate. reflexivity. Qed.

Lemma dw_body_process t l st :
  length t = 4 -> dw_body w t l st = run_step w (Fetch (dw_job_of t)) l st.
Proof. destruct t as [|a [|b [|c [|d [|? ?]]]]]; try discriminate. reflexivity. Qed.

Lemma dod_body_process t l st :
  length t = 3 -> dod_body w t l st = run_step w (Fetch (dod_job_of t)) l st.
Proof. destruct t as [|a [|b [|c [|? ?]]]]; try discriminate. reflexivity. Qed.

Lemma loop_as_steps (body : tuple -> locals -> M locals) (job_of : tuple -> job) n ts :
  (forall t l st, length t = n -> body t l st = run_step w (Fetch (job_of t)) l st) ->
  arity n ts ->
  forall l st, for_each body ts l st
               = for_each (run_step w) (map (fun t => Fetch (job_of t)) ts) l st.
Proof.
  intros Hbody Har. apply for_each_map.
  eapply Forall_impl; [exact Har|]. simpl. intros t Ht l st. now apply Hbody.
Qed.

(** One loop of [main] with its opening line and what follows it. *)
Lemma stage_as_steps (body : tuple -> locals -> M locals) (job_of : tuple -> job) n ts
      line rest (k : locals -> M locals) l st :
  (forall t l st, length t = n -> body t l st = run_step w (Fetch (job_of t)) l st) ->
  arity n ts ->
  (forall l' st', k l' st' = for_each (run_step w) rest l' st') ->
  bind (print line) (fun _ => bind (for_each body ts l) k) st
  = for_each (run_step w) ((Announce line :: map (fun t => Fetch (job_of t)) ts) ++ rest) l st.
Proof.
  intros Hbody Har Hk. simpl. unfold bind at 1 3. simpl.
  rewrite for_each_app. unfold bind.
  rewrite <- (loop_as_steps body job_of n ts Hbody Har).
  destruct (for_each body ts l _) as [[l1|e] st1]; [apply Hk | reflexivity].
Qed.

(** The four loops of [main], on manifests of the right arities, are one
    loop over the steps. *)
Lemma download_all_as_steps army af dw dod st :
  well_shaped army af dw dod ->
  download_all w army af dw dod st
  = for_each (run_step w) (steps_of army af dw dod) locals0 st.
Proof.
  intros (Ha & Hf & Hd & Hs). unfold steps_of, download_all.
  rewrite <- (app_nil_r (announce "4" _ _ :: _)).
  apply (stage_as_steps (army_body w) army_job_of 3); [apply army_body_process | exact Ha |].
  intros l1 st1.
  apply (stage_as_steps (af_body w) af_job_of 3); [apply af_body_process | exact Hf |].
  intros l2 st2.
  apply (stage_as_steps (dw_body w) dw_job_of 4); [apply dw_body_process | exact Hd |].
  intros l3 st3.
  apply (stage_as_steps (dod_body w) dod_job_of 3); [apply dod_body_process | exact Hs |].
  reflexivity.
Qed.

Lemma fetched_app xs ys : fetched (xs ++ ys) = fetched xs ++ fetched ys.
Proof. unfold fetched. apply flat_map_app. Qed.

Lemma fetched_map_Fetch {A} (f : A -> job) xs :
  fetched (map (fun t => Fetch (f t)) xs) = map f xs.
Proof. induction xs as [|x xs IH]; simpl; [reflexivity | now rewrite IH]. Qed.

Lemma fetched_steps_of army af dw dod :
  fetched (steps_of army af dw dod) = jobs_of army af dw dod.
Proof.
  unfold steps_of, jobs_of, announce.
  rewrite !fetched_app. cbn [fetched flat_map app].
  fold (fetched (map (fun t => Fetch (army_job_of t)) army)).
  fold (fetched (map (fun t => Fetch (af_job_of t)) af)).
  fold (fetched (map (fun t => Fetch (dw_job_of t)) dw)).
  fold (fetched (map (fun t => Fetch (dod_job_of t)) dod)).
  now rewrite !fetched_map_Fetch.
Qed.

End Loops.

(** ** One round of a loop *)

Section OneStep.

Context (w : world).

(** [process] is [download_file], then a line and a pause if it returned. *)
Lemma process_unfold j l st :
  process w j l st
  = match download_file w (job_url j) (job_path j) st with
    | (Ret (ok, msg), st1) =>
        (Ret (tally ok (job_label j, job_url j, msg) l),
         emit (EvSleep SLEEP_SECONDS)
           (emit (EvPrint ("  [" +:+ PyStr.ljust 4 (if ok then "OK" else "FAIL") +:+ "]  "
                             +:+ PyStr.ljust 72 (PyStr.take 72 (job_label j))
                             +:+ "  " +:+ msg)) st1))
    | (Raise e, st1) => (Raise e, st1)
    end.
Proof.
  unfold process, bind.
  destruct (download_file w (job_url j) (job_path j) st) as [[[ok msg]|e] st1]; reflexivity.
Qed.

(** The state a step leaves does not depend on the locals. *)
Lemma run_step_state s l l' st :
  snd (run_step w s l st) = snd (run_step w s l' st).
Proof.
  destruct s as [line|j]; [reflexivity|]. simpl. rewrite !process_unfold.
  destruct (download_file w (job_url j) (job_path j) st) as [[[ok msg]|e] st1]; reflexivity.
Qed.

(** What one round adds to the history, seen through the projections. *)
Lemma process_step j l st :
  exists delta,
    trace (snd (process w j l st)) = trace st ++ delta
    /\ (forall p, In p (written_paths delta) -> p = job_path j)
    /\ match fst (download_file w (job_url j) (job_path j) st) with
       | Ret v =>
           fst (process w j l st) = Ret (tally (fst v) (job_label j, job_url j, snd v) l)
           /\ List.filter is_call delta = calls_of j
           /\ List.filter is_paced delta = paced_of j
       | Raise e =>
           fst (process w j l st) = Raise e
           /\ (List.filter is_call delta = firstn 1 (calls_of j) \/ List.filter is_call delta = calls_of j)
           /\ (List.filter is_paced delta = [] \/ List.filter is_paced delta = firstn 1 (paced_of j))
       end.
Proof.
  destruct (download_file_events w (job_url j) (job_path j) st) as (n & data & Htr & Hn & Hret).
  rewrite process_unfold.
  destruct (download_file w (job_url j) (job_path j) st) as [[[ok msg]|e] st1];
    simpl in Htr, Hret |- *.
  - specialize (Hret _ eq_refl).
    eexists. rewrite Htr, <- !app_assoc. split; [reflexivity|].
    destruct n as [|[|[|[|[|n]]]]]; try lia; simpl; repeat split;
      try tauto; intros p Hp; intuition congruence.
  - exists (firstn n [EvMakedirs (os_path.dirname (job_path j)); EvUrlopen (job_url j) HEADERS 120;
                      EvOpenWb (job_path j); EvWrite (job_path j) data]).
    split; [exact Htr|].
    destruct n as [|[|[|[|[|n]]]]]; try lia; simpl; repeat split;
      try tauto; intros p Hp; intuition congruence.
Qed.

End OneStep.

(** ** A run of steps *)

Section Runs.

Context (w : world).

Lemma written_paths_app xs ys :
  written_paths (xs ++ ys) = written_paths xs ++ written_paths ys.
Proof. apply flat_map_app. Qed.

Lemma sleeps_app xs ys : sleeps (xs ++ ys) = sleeps xs ++ sleeps ys.
Proof. apply flat_map_app. Qed.

Lemma sleeps_paced tr : sleeps (List.filter is_paced tr) = sleeps tr.
Proof.
  induction tr as [|ev tr IH]; [reflexivity|].
  destruct ev; simpl; rewrite ?IH; reflexivity.
Qed.

Lemma for_each_cons (s : step) ss l st :
  for_each (run_step w) (s :: ss) l st
  = match run_step w s l st with
    | (Ret l1, st1) => for_each (run_step w) ss l1 st1
    | (Raise e, st1) => (Raise e, st1)
    end.
Proof. reflexivity. Qed.

(** Everything the later theorems need of a run of steps: what it adds
    to the history, seen through each projection, and the locals it
    returns. *)
Lemma run_steps_spec ss : forall l st,
  exists delta,
    trace (snd (for_each (run_step w) ss l st)) = trace st ++ delta
    /\ (forall p, In p (written_paths delta) -> In p (map job_path (fetched ss)))
    /\ (exists more, flat_map calls_of (fetched ss) = List.filter is_call delta ++ more)
    /\ (exists more, flat_map paced_of (fetched ss) = List.filter is_paced delta ++ more)
    /\ sleeps delta = List.repeat SLEEP_SECONDS (length (outcomes w ss st))
    /\ (forall l', fst (for_each (run_step w) ss l st) = Ret l' ->
          l' = tally_all l (outcomes w ss st)
          /\ map fst (outcomes w ss st) = fetched ss
          /\ List.filter is_call delta = flat_map calls_of (fetched ss)
          /\ List.filter is_paced delta = flat_map paced_of (fetched ss)).
Proof.
  induction ss as [|s ss IH]; intros l st.
  { exists []. simpl. rewrite app_nil_r.
    split; [reflexivity|]. split; [tauto|]. split; [now exists []|].
    split; [now exists []|]. split; [reflexivity|].
    intros l' [= <-]. repeat split. }
  rewrite for_each_cons. destruct s as [line|j].
  - (* an opening line *)
    simpl run_step. unfold bind, print, ret.
    destruct (IH l (emit (EvPrint line) st))
      as (delta & Htr & Hw & [mc Hc] & [mp Hp] & Hs & Hret).
    exists (EvPrint line :: delta). simpl in Htr |- *.
    rewrite <- app_assoc in Htr.
    split; [exact Htr|]. split; [exact Hw|]. split; [now exists mc|].
    split; [now exists mp|]. split; [exact Hs | exact Hret].
  - (* a fetch *)
    destruct (process_step w j l st) as (d1 & Htr1 & Hw1 & Hcase).
    simpl run_step. simpl outcomes.
    pose proof (run_step_state w (Fetch j) locals0 l st) as Hst.
    simpl run_step in Hst. rewrite Hst. clear Hst.
    destruct (process w j l st) as [[l1|e] st1] eqn:Hproc; simpl in Htr1.
    + (* the call returned *)
      destruct (fst (download_file w (job_url j) (job_path j) st)) as [v|e];
        destruct Hcase as (Hfst & Hc1 & Hp1); [|discriminate].
      injection Hfst as ->.
      destruct (IH (tally (fst v) (job_label j, job_url j, snd v) l) st1)
        as (delta & Htr & Hw & [mc Hc] & [mp Hp] & Hs & Hret).
      exists (d1 ++ delta). simpl.
      rewrite Htr, Htr1, <- app_assoc, written_paths_app, sleeps_app, !List.filter_app, Hc1, Hp1.
      split; [reflexivity|]. split; [|split; [|split; [|split]]].
      * intros p [Hin|Hin]%in_app_or; [left; symmetry; now apply Hw1 | right; now apply Hw].
      * exists mc. simpl. now rewrite Hc.
      * exists mp. simpl. now rewrite Hp.
      * rewrite Hs, <- (sleeps_paced d1), Hp1. reflexivity.
      * intros l' Hl'. destruct (Hret l' Hl') as (-> & Ho & Hc' & Hp').
        repeat split.
        -- now rewrite Ho.
        -- simpl. now rewrite Hc'.
        -- simpl. now rewrite Hp'.
    + (* the call raised *)
      destruct (fst (download_file w (job_url j) (job_path j) st)) as [v|e'];
        destruct Hcase as (Hfst & Hc1 & Hp1); [discriminate|].
      exists d1. simpl. split; [exact Htr1|]. split; [|split; [|split; [|split]]].
      * intros p Hin. left. symmetry. now apply Hw1.
      * destruct Hc1 as [-> | ->]; simpl; eauto.
      * destruct Hp1 as [-> | ->]; simpl; eauto.
      * rewrite <- (sleeps_paced d1). destruct Hp1 as [-> | ->]; reflexivity.
      * discriminate.
Qed.

End Runs.

Ltac made_dir :=
  first [ reflexivity | assumption
        | intros; simpl; apply elem_of_union_l, elem_of_list_to_set, list_elem_of_In, ancestors_self ].

(** C9. In every call of [download_file] the events come in the order
    makedirs, urlopen, open, write, starting with the makedirs of the
    parent directory; the request is attempted only with that directory
    recorded as created, and the destination is opened only once the
    whole body has been read.  Hence, when the request or the read raises
    (an [HTTPError], a [URLError] or any other [Exception]), the call
    returns [False] with the reason, with the directory created and no
    file created or modified. *)
Theorem failed_request_leaves_no_file :
  forall (w : world) (url dest : string) (st : state),
  let d := os_path.dirname dest in
  let h1 := trace st ++ [EvMakedirs d] in
  let run := download_file w url dest st in
  (exists n data,
      trace (snd run) = trace st ++ firstn n [EvMakedirs d; EvUrlopen url HEADERS 120;
                                              EvOpenWb dest; EvWrite dest data]
      /\ 1 <= n <= 4
      /\ (2 <= n -> d ∈ dirs (snd run))
      /\ (3 <= n -> net w h1 url = Body data)
      /\ (n <= 2 -> files (snd run) = files st))
  /\ (forall e,
         makedirs_fault w (trace st) d = None ->
         request_fault w url = None ->
         net w h1 url = OpenRaises e \/ net w h1 url = ReadRaises e ->
         isinstance e cls_Exception = true ->
         fst run = Ret (false, reason_of e)
         /\ files (snd run) = files st
         /\ d ∈ dirs (snd run)
         /\ trace (snd run) = trace st ++ [EvMakedirs d; EvUrlopen url HEADERS 120]).
Proof.
  intros w url dest st d h1 run. subst run h1. split.
  - unfold download_file, bind, os_makedirs, Request. fold d.
    destruct (makedirs_fault w (trace st) d) as [e|].
    { exists 1, []. simpl. repeat split; lia. }
    destruct (request_fault w url) as [e|]; unfold raise, ret.
    { exists 1, []. simpl. repeat split; lia. }
    rewrite try_except_clauses.
    unfold try_body, bind, urlopen_read, open_write, ret. simpl.
    destruct (net w _ url) as [e|e|data] eqn:Hnet.
    1,2: exists 2, []; destruct (isinstance e cls_Exception); simpl;
         rewrite <- app_assoc; repeat split; try lia; made_dir.
    destruct (open_fault w _ dest) as [e|].
    { exists 3, data. destruct (isinstance e cls_Exception); simpl;
        rewrite <- !app_assoc; repeat split; try lia; made_dir. }
    destruct (write_fault w _ dest data) as [[e k]|].
    { exists 4, data. destruct (isinstance e cls_Exception); simpl;
        rewrite <- !app_assoc; repeat split; try lia; made_dir. }
    exists 4, data. simpl. rewrite <- !app_assoc. repeat split; try lia; made_dir.
  - intros e Hmk Hreq Hnet He.
    rewrite (download_file_reaches_try w url dest st Hmk Hreq), try_except_clauses.
    unfold try_body, bind, urlopen_read. simpl. fold d.
    destruct Hnet as [-> | ->]; rewrite He; simpl; rewrite <- app_assoc;
      repeat split; made_dir.
Qed.

(** C9 on a server that answers 404: the call returns [False] with the
    reason [HTTP 404]. *)
Lemma failed_request_leaves_no_file_witness :
  fst (download_file serve_none "https://example.org/a.xml" "out/a.xml" state0)
  = Ret (false, "HTTP 404")
  /\ files (snd (download_file serve_none "https://example.org/a.xml" "out/a.xml" state0))
     = files state0.
Proof.
  destruct (failed_request_leaves_no_file serve_none "https://example.org/a.xml" "out/a.xml"
              state0) as [_ H].
  destruct (H (HTTPError 404 "Not Found") eq_refl eq_refl (or_introl eq_refl) eq_refl)
    as (Hret & Hfiles & _).
  split; [exact Hret | exact Hfiles].
Defined.

(** ** [main] as banner, steps and report *)

Section MainRun.

Context (w : world).

Lemma banner_spec st :
  fst (banner st) = Ret tt
  /\ trace (snd (banner st)) = trace st ++ map EvPrint banner_lines.
Proof. split; [reflexivity|]. simpl. rewrite <- !app_assoc. reflexivity. Qed.

Lemma print_failures_spec fs : forall st,
  fst (for_each print_failure fs tt st) = Ret tt
  /\ trace (snd (for_each print_failure fs tt st))
     = trace st ++ map EvPrint
         (flat_map (fun f => [ "  FAIL  " +:+ fst (fst f);
                               "        URL: " +:+ snd (fst f);
                               "        Reason: " +:+ snd f ]) fs).
Proof.
  induction fs as [|[[label url] msg] fs IH]; intros st.
  { simpl. now rewrite app_nil_r. }
  simpl. unfold bind, print. simpl.
  destruct (IH (emit (EvPrint ("        Reason: " +:+ msg))
                  (emit (EvPrint ("        URL: " +:+ url))
                     (emit (EvPrint ("  FAIL  " +:+ label)) st)))) as [Hr Ht].
  split; [exact Hr|]. rewrite Ht. simpl. rewrite <- !app_assoc. reflexivity.
Qed.

Lemma report_spec l st :
  fst (report w l st) = Ret tt
  /\ trace (snd (report w l st)) = trace st ++ map EvPrint (report_lines w l).
Proof.
  unfold report, report_lines, bind, print. simpl.
  destruct (failures l) as [|f fs] eqn:Hf.
  - simpl. split; [reflexivity|]. rewrite <- !app_assoc. reflexivity.
  - set (st4 := emit _ (emit _ (emit _ (emit _ st)))).
    destruct (print_failures_spec (f :: fs) st4) as [Hr Ht].
    split; [exact Hr|]. rewrite Ht. subst st4. simpl. rewrite <- !app_assoc. reflexivity.
Qed.

Lemma main_with_unfold army af dw dod st :
  main_with w army af dw dod st
  = match download_all w army af dw dod (snd (banner st)) with
    | (Ret l, st1) => report w l st1
    | (Raise e, st1) => (Raise e, st1)
    end.
Proof. reflexivity. Qed.


Lemma paced_of_prints ls : List.filter is_paced (map EvPrint ls) = [].
Proof. induction ls; [reflexivity | assumption]. Qed.

Lemma written_of_prints ls : written_paths (map EvPrint ls) = [].
Proof. induction ls; [reflexivity | assumption]. Qed.

Lemma sleeps_of_prints ls : sleeps (map EvPrint ls) = [].
Proof. induction ls; [reflexivity | assumption]. Qed.

(** A run of [main_with] on manifests of the right arities: the banner,
    then the steps, then (unless a step raised) the report. *)
Lemma main_with_spec army af dw dod st :
  well_shaped army af dw dod ->
  let st0 := snd (banner st) in
  let mid := for_each (run_step w) (steps_of army af dw dod) locals0 st0 in
  exists dm dr,
    trace (snd mid) = trace st0 ++ dm
    /\ trace (snd (main_with w army af dw dod st))
       = trace st ++ map EvPrint banner_lines ++ dm ++ map EvPrint dr
    /\ match fst mid with
       | Ret l => fst (main_with w army af dw dod st) = Ret tt /\ dr = report_lines w l
       | Raise e => fst (main_with w army af dw dod st) = Raise e /\ dr = []
       end.
Proof.
  intros Hws st0 mid.
  destruct (banner_spec st) as [_ Hb].
  rewrite main_with_unfold. subst mid. fold st0 in Hb |- *. clearbody st0.
  destruct (run_steps_spec w (steps_of army af dw dod) locals0 st0) as (dm & Hdm & _).
  rewrite (download_all_as_steps w army af dw dod st0 Hws).
  destruct (for_each (run_step w) _ locals0 st0) as [[l|e] st1]; simpl in Hdm |- *.
  - destruct (report_spec l st1) as [Hr Ht].
    exists dm, (report_lines w l). rewrite Ht, Hdm, Hb, <- !app_assoc. auto.
  - exists dm, []. rewrite Hdm, Hb, <- !app_assoc. simpl. rewrite app_nil_r. auto.
Qed.

End MainRun.

(** ** Tallies, and runs that return *)

Section Tallies.

Context (w : world).

Lemma tally_all_spec outs : forall l,
  success_count (tally_all l outs) = success_count l + count_ok outs
  /\ fail_count (tally_all l outs) = fail_count l + length (failure_records outs)
  /\ failures (tally_all l outs) = failures l ++ failure_records outs.
Proof.
  induction outs as [|[j [ok msg]] outs IH]; intros l.
  { unfold tally_all, count_ok, failure_records. simpl. rewrite app_nil_r.
    repeat split; lia. }
  unfold tally_all in *. simpl fold_left.
  destruct (IH (tally ok (job_label j, job_url j, msg) l)) as (Hs & Hf & Hl).
  rewrite Hs, Hf, Hl. unfold count_ok, failure_records. simpl.
  destruct ok; simpl; rewrite <- ?app_assoc; simpl; repeat split; lia.
Qed.

Lemma count_ok_failures outs : count_ok outs + length (failure_records outs) = length outs.
Proof.
  unfold count_ok, failure_records.
  induction outs as [|[j [[] msg]] outs IH]; simpl; lia.
Qed.



Lemma requests_calls tr : requests (List.filter is_call tr) = requests tr.
Proof.
  induction tr as [|ev tr IH]; [reflexivity|].
  destruct ev; simpl; rewrite ?IH; reflexivity.
Qed.

Lemma requests_calls_of js : requests (flat_map calls_of js) = map job_url js.
Proof. induction js as [|j js IH]; simpl; [reflexivity | now rewrite IH]. Qed.

End Tallies.

(** ** The static manifests *)

Lemma manifests_well_shaped : well_shaped ARMY_FILES AF_FILES DW_FILES DOD_SUMMARY.
Proof. repeat split; repeat (constructor; [reflexivity|]); constructor. Qed.

Lemma all_jobs_count : length all_jobs = 98.
Proof. reflexivity. Qed.

(** Every job of the manifests has a directory part in its path and a
    scheme in its url. *)
Lemma all_jobs_accepted :
  forallb (fun j => negb (String.eqb (os_path.dirname (job_path j)) EmptyString)
                    && has_scheme (job_url j)) all_jobs = true.
Proof. vm_compute. reflexivity. Qed.

(** On a [machine] whose network never raises anything but [Exception]s,
    every call of the manifests returns. *)
Lemma machine_undisturbed n :
  (forall h u e, n h u = OpenRaises e \/ n h u = ReadRaises e -> isinstance e cls_Exception = true) ->
  Forall (undisturbed (machine n)) all_jobs.
Proof.
  intros Hn. apply List.Forall_forall. intros j Hj.
  pose proof all_jobs_accepted as Hall. rewrite forallb_forall in Hall.
  specialize (Hall j Hj). apply andb_prop in Hall as [Hd Hs].
  repeat split; simpl.
  - intros h. unfold posix_makedirs_fault.
    destruct (String.eqb (os_path.dirname (job_path j)) EmptyString); [discriminate|reflexivity].
  - unfold url_scheme_fault. now rewrite Hs.
  - intros h e. apply Hn.
  - discriminate.
  - discriminate.
Qed.

(** ** The run of [main] *)

(** C3. The loops of [main] pass through every prefix of the steps, and at
    each such point [success_count + fail_count] is the number of entries
    processed so far, [fail_count] is the length of [failures], and
    [failures] holds one (label, url, message) record per call that
    returned [False].  When [main] returns, the report prints
    [success_count] out of 98 and, for every failure, its label, its url
    and its reason on three consecutive lines. *)
Theorem tally_invariant : forall (w : world) (st : state),
  let steps := steps_of ARMY_FILES AF_FILES DW_FILES DOD_SUMMARY in
  let st0 := snd (banner st) in
  (forall pre post, steps = pre ++ post ->
      download_all w ARMY_FILES AF_FILES DW_FILES DOD_SUMMARY st0
      = (l1 <- for_each (run_step w) pre locals0 ;; for_each (run_step w) post l1) st0)
  /\ (forall pre post l1 st1, steps = pre ++ post ->
        for_each (run_step w) pre locals0 st0 = (Ret l1, st1) ->
        success_count l1 + fail_count l1 = length (fetched pre)
        /\ fail_count l1 = length (failures l1)
        /\ failures l1 = failure_records (outcomes w pre st0))
  /\ (forall j l l' s s', process w j l s = (Ret l', s') ->
        (success_count l' = success_count l + 1 /\ fail_count l' = fail_count l
         /\ failures l' = failures l)
        \/ (success_count l' = success_count l /\ fail_count l' = fail_count l + 1
            /\ exists msg, failures l' = failures l ++ [(job_label j, job_url j, msg)]))
  /\ (fst (main w st) = Ret tt ->
        exists l st1,
          download_all w ARMY_FILES AF_FILES DW_FILES DOD_SUMMARY st0 = (Ret l, st1)
          /\ success_count l + fail_count l = 98
          /\ fail_count l = length (failures l)
          /\ failures l = failure_records (outcomes w steps st0)
          /\ trace (snd (main w st)) = trace st1 ++ map EvPrint (report_lines w l)
          /\ In ("Done. " +:+ PyStr.of_nat (success_count l) +:+ "/98 files downloaded.")
                (report_lines w l)
          /\ (forall label url msg, In (label, url, msg) (failures l) ->
                exists before after,
                  report_lines w l
                  = before ++ [ "  FAIL  " +:+ label; "        URL: " +:+ url;
                                "        Reason: " +:+ msg ] ++ after)).
Proof.
  intros w st steps st0.
  assert (Hpre : forall pre l1 st1,
             for_each (run_step w) pre locals0 st0 = (Ret l1, st1) ->
             success_count l1 + fail_count l1 = length (fetched pre)
             /\ fail_count l1 = length (failures l1)
             /\ failures l1 = failure_records (outcomes w pre st0)).
  { intros pre l1 st1 Hrun.
    destruct (run_steps_spec w pre locals0 st0) as (delta & _ & _ & _ & _ & _ & Hret).
    rewrite Hrun in Hret. destruct (Hret l1 eq_refl) as (Hl1 & Hout & _).
    clear Hret. rewrite Hl1. clear Hl1.
    destruct (tally_all_spec (outcomes w pre st0) locals0) as (Hs & Hf & Hl).
    rewrite Hs, Hf, Hl. simpl.
    rewrite <- Hout, length_map, <- (count_ok_failures (outcomes w pre st0)).
    repeat split; lia. }
  split; [|split; [|split]].
  - intros pre post Hsplit.
    rewrite (download_all_as_steps w _ _ _ _ st0 manifests_well_shaped).
    fold steps. rewrite Hsplit. apply for_each_app.
  - intros pre post l1 st1 _. apply Hpre.
  - intros j l l' s s'. rewrite process_unfold.
    destruct (download_file w (job_url j) (job_path j) s) as [[[[] msg]|e] s1];
      intros [= <- _]; simpl; eauto.
  - unfold main. rewrite main_with_unfold. fold st0.
    destruct (download_all w ARMY_FILES AF_FILES DW_FILES DOD_SUMMARY st0)
      as [[l|e] st1] eqn:Hall; [|discriminate]. intros _.
    exists l, st1. split; [reflexivity|].
    rewrite (download_all_as_steps w _ _ _ _ st0 manifests_well_shaped) in Hall.
    fold steps in Hall.
    destruct (Hpre steps l st1 Hall) as (Hsum & Hlen & Hrec).
    unfold steps in Hsum. rewrite fetched_steps_of in Hsum.
    change (jobs_of ARMY_FILES AF_FILES DW_FILES DOD_SUMMARY) with all_jobs in Hsum.
    rewrite all_jobs_count in Hsum.
    destruct (report_spec w l st1) as [_ Htr].
    repeat split; try assumption.
    + unfold report_lines. rewrite Hsum. simpl. right. left. reflexivity.
    + intros label url msg Hin. apply in_split in Hin as (f1 & f2 & Hf).
      unfold report_lines.
      destruct (failures l) as [|f0 fs]; [destruct f1; discriminate|].
      rewrite Hf, flat_map_app.
      eexists ([_; _; _; _] ++ flat_map _ f1), (flat_map _ f2). simpl. reflexivity.
Qed.

(** C3 where only the [.xml] files are served: [main] returns, with 63
    successes and 35 failures. *)
Lemma tally_invariant_witness :
  exists l st1,
    download_all serve_xml ARMY_FILES AF_FILES DW_FILES DOD_SUMMARY (snd (banner state0))
    = (Ret l, st1)
    /\ success_count l + fail_count l = 98
    /\ fail_count l = length (failures l).
Proof.
  destruct (tally_invariant serve_xml state0) as (_ & _ & _ & H).
  destruct H as (l & st1 & Hall & Hsum & Hlen & _).
  - vm_compute. reflexivity.
  - exists l, st1. repeat split; assumption.
Defined.




(** C7. In every run of [main], the requests and the pauses alternate:
    seen through its [urlopen] and [time.sleep] events the run is a prefix
    of request, sleep, request, sleep, ... over the 98 entries, every
    pause being [time.sleep(0.3)]; there is one pause per call of
    [download_file] that returned, whether with [True] or with [False]; and
    when [main] returns every request is followed by its pause. *)
Theorem fixed_delay_between_requests : forall (w : world) (st : state),
  exists delta,
    trace (snd (main w st)) = trace st ++ delta
    /\ (exists more, flat_map paced_of all_jobs = List.filter is_paced delta ++ more)
    /\ sleeps delta
       = List.repeat (3 # 10)
           (length (outcomes w (steps_of ARMY_FILES AF_FILES DW_FILES DOD_SUMMARY)
                      (snd (banner st))))
    /\ (fst (main w st) = Ret tt ->
          List.filter is_paced delta = flat_map paced_of all_jobs
          /\ sleeps delta = List.repeat (3 # 10) 98).
Proof.
  intros w st. unfold main.
  destruct (main_with_spec w _ _ _ _ st manifests_well_shaped) as (dm & dr & Hdm & Htr & Hcase).
  destruct (run_steps_spec w (steps_of ARMY_FILES AF_FILES DW_FILES DOD_SUMMARY)
              locals0 (snd (banner st))) as (dm' & Hdm' & _ & _ & [more Hpre] & Hs & Hret).
  rewrite Hdm in Hdm'. apply app_inv_head in Hdm'. subst dm'.
  rewrite fetched_steps_of in Hpre, Hret.
  change (jobs_of ARMY_FILES AF_FILES DW_FILES DOD_SUMMARY) with all_jobs in Hpre, Hret.
  exists (map EvPrint banner_lines ++ dm ++ map EvPrint dr).
  split; [exact Htr|].
  assert (Hpaced : List.filter is_paced (map EvPrint banner_lines ++ dm ++ map EvPrint dr)
                   = List.filter is_paced dm).
  { now rewrite !List.filter_app, !paced_of_prints, app_nil_r. }
  assert (Hsl : sleeps (map EvPrint banner_lines ++ dm ++ map EvPrint dr) = sleeps dm).
  { now rewrite !sleeps_app, !sleeps_of_prints, app_nil_r. }
  rewrite Hpaced, Hsl. split; [now exists more|]. split; [exact Hs|].
  intros Hmain.
  destruct (fst (for_each (run_step w) _ locals0 (snd (banner st)))) as [l|e].
  - destruct (Hret l eq_refl) as (_ & Hout & _ & Hp).
    split; [exact Hp|].
    rewrite Hs, <- (length_map fst), Hout, all_jobs_count. reflexivity.
  - destruct Hcase as [Hr _]. rewrite Hr in Hmain. discriminate.
Qed.

(** C7 where no url is served: after each of the 98 failed attempts the
    program pauses. *)
Lemma fixed_delay_between_requests_witness :
  fst (main serve_none state0) = Ret tt
  /\ List.filter is_paced (trace (snd (main serve_none state0))) = flat_map paced_of all_jobs.
Proof.
  assert (Hret : fst (main serve_none state0) = Ret tt) by (vm_compute; reflexivity).
  split; [exact Hret|].
  destruct (fixed_delay_between_requests serve_none state0) as (delta & Htr & _ & _ & H).
  destruct (H Hret) as [Hp _].
  rewrite Htr. exact Hp.
Defined.

(** ** Where the files go *)

Lemma all_paths_inside :
  forallb (fun j => strictly_inside OUTPUT_DIR (job_path j)) all_jobs = true.
Proof. vm_compute. reflexivity. Qed.

(** C4, as the spec states it, fails on the DoD Summary list: its files go
    directly under the [DoD_Summary] folder, two components below
    [fy2026_budget], with no category level. *)
Lemma dod_summary_has_no_category_level :
  job_path (dod_job_of (nth 0 DOD_SUMMARY []))
  = "fy2026_budget/DoD_Summary/FY2026_M1_Military_Personnel.xlsx"
  /\ below_output_dir (job_path (dod_job_of (nth 0 DOD_SUMMARY [])))
     = ["DoD_Summary"; "FY2026_M1_Military_Personnel.xlsx"]
  /\ ~ Forall (fun j => length (below_output_dir (job_path j)) = 3) all_jobs.
Proof.
  split; [reflexivity|]. split; [reflexivity|].
  intros H. rewrite List.Forall_forall in H.
  specialize (H (dod_job_of (nth 0 DOD_SUMMARY []))).
  assert (Hin : In (dod_job_of (nth 0 DOD_SUMMARY [])) all_jobs).
  { unfold all_jobs, jobs_of. rewrite !in_app_iff. right. right. right.
    apply in_map. left. reflexivity. }
  specialize (H Hin). vm_compute in H. discriminate.
Qed.

(** C4 (amended). Below [fy2026_budget], the path of every Army, Air
    Force and Defense-Wide entry is service folder, sanitised category,
    sanitised file name with its extension, and the path of every DoD
    Summary entry is [DoD_Summary] then the file name; every path of the
    manifests lies strictly inside [fy2026_budget]; and in every run of
    [main] every file opened or written is one of these paths. *)
Theorem files_stay_in_output_dir :
  Forall (fun t => below_output_dir (job_path (army_job_of t))
                   = ["Army"; safe_filename (item 0 t);
                      safe_filename (item 1 t) +:+ "." +:+ item 2 t]) ARMY_FILES
  /\ Forall (fun t => below_output_dir (job_path (af_job_of t))
                      = ["AirForce"; safe_filename (item 0 t);
                         safe_filename (item 1 t) +:+ "." +:+ item 2 t]) AF_FILES
  /\ Forall (fun t => below_output_dir (job_path (dw_job_of t))
                      = ["DefenseWide"; safe_filename (item 0 t);
                         safe_filename (item 2 t) +:+ "." +:+ item 3 t]) DW_FILES
  /\ Forall (fun t => below_output_dir (job_path (dod_job_of t))
                      = ["DoD_Summary"; item 2 t]) DOD_SUMMARY
  /\ Forall (fun j => strictly_inside OUTPUT_DIR (job_path j) = true) all_jobs
  /\ (forall (w : world) (st : state),
        exists delta,
          trace (snd (main w st)) = trace st ++ delta
          /\ forall p, In p (written_paths delta) ->
                       In p (map job_path all_jobs)
                       /\ strictly_inside OUTPUT_DIR p = true).
Proof.
  split; [repeat (constructor; [vm_compute; reflexivity|]); constructor|].
  split; [repeat (constructor; [vm_compute; reflexivity|]); constructor|].
  split; [repeat (constructor; [vm_compute; reflexivity|]); constructor|].
  split; [repeat (constructor; [vm_compute; reflexivity|]); constructor|].
  assert (Hinside : Forall (fun j => strictly_inside OUTPUT_DIR (job_path j) = true) all_jobs).
  { apply List.Forall_forall. apply forallb_forall. exact all_paths_inside. }
  split; [exact Hinside|].
  intros w st. unfold main.
  destruct (main_with_spec w _ _ _ _ st manifests_well_shaped) as (dm & dr & Hdm & Htr & _).
  destruct (run_steps_spec w (steps_of ARMY_FILES AF_FILES DW_FILES DOD_SUMMARY)
              locals0 (snd (banner st))) as (dm' & Hdm' & Hw & _).
  rewrite Hdm in Hdm'. apply app_inv_head in Hdm'. subst dm'.
  rewrite fetched_steps_of in Hw.
  change (jobs_of ARMY_FILES AF_FILES DW_FILES DOD_SUMMARY) with all_jobs in Hw.
  exists (map EvPrint banner_lines ++ dm ++ map EvPrint dr).
  split; [exact Htr|].
  intros p. rewrite !written_paths_app, !written_of_prints, app_nil_r, app_nil_l.
  intros Hp. specialize (Hw p Hp). split; [exact Hw|].
  apply in_map_iff in Hw as (j & <- & Hj).
  rewrite List.Forall_forall in Hinside. now apply Hinside.
Qed.

(** ** The shape of the manifests *)

(** C5, as the spec states it, fails on [DW_FILES]: its entries have four
    components (category, path, file name, extension), so not every entry
    of the static manifest is a triple. *)
Lemma dw_entries_have_four_fields :
  nth 0 DW_FILES []
  = ["O&M"; "01_Operation_and_Maintenance/O_M_VOL_1_PART_1"; "OM_Volume1_Part1"; "json"]
  /\ ~ arity 3 static_manifest.
Proof.
  split; [reflexivity|].
  unfold arity. intros H. rewrite List.Forall_forall in H.
  specialize (H (nth 0 DW_FILES [])).
  assert (Hin : In (nth 0 DW_FILES []) static_manifest).
  { unfold static_manifest. rewrite !in_app_iff. right. right. left. left. reflexivity. }
  specialize (H Hin). discriminate.
Qed.

(** C5 (amended). The entries of [ARMY_FILES] and [AF_FILES] are
    (category, file name, extension) triples, those of [DW_FILES] are
    (category, path, file name, extension) 4-tuples and those of
    [DOD_SUMMARY] are (url, subfolder, file name) triples; each loop body
    hands the url and the path it builds from its entry to the one generic
    routine, [download_file] followed by the line, the tally and the
    pause; and the four loops of [main] are one loop of that routine over
    the 98 entries. *)
Theorem manifest_shapes :
  arity 3 ARMY_FILES /\ arity 3 AF_FILES /\ arity 4 DW_FILES /\ arity 3 DOD_SUMMARY
  /\ Forall (fun t => has_scheme (item 0 t) = true) DOD_SUMMARY
  /\ (forall w category filename ext l st,
         army_body w [category; filename; ext] l st
         = process w (army_job category filename ext) l st)
  /\ (forall w category filename ext l st,
         af_body w [category; filename; ext] l st
         = process w (af_job category filename ext) l st)
  /\ (forall w category path filename ext l st,
         dw_body w [category; path; filename; ext] l st
         = process w (dw_job category path filename ext) l st)
  /\ (forall w url subfolder fname l st,
         dod_body w [url; subfolder; fname] l st
         = process w (dod_job url subfolder fname) l st)
  /\ (forall w st,
         download_all w ARMY_FILES AF_FILES DW_FILES DOD_SUMMARY st
         = for_each (run_step w) (steps_of ARMY_FILES AF_FILES DW_FILES DOD_SUMMARY) locals0 st)
  /\ fetched (steps_of ARMY_FILES AF_FILES DW_FILES DOD_SUMMARY) = all_jobs
  /\ length all_jobs = length static_manifest.
Proof.
  destruct manifests_well_shaped as (Ha & Hf & Hd & Hs).
  repeat split; try assumption; try reflexivity.
  - repeat (constructor; [vm_compute; reflexivity|]); constructor.
  - intros w st. apply download_all_as_steps, manifests_well_shaped.
Qed.

(** ** What the manifest strings can influence *)

Section Flags.

Lemma count_ok_flags outs :
  count_ok outs = length (List.filter (fun b : bool => b) (ok_flags outs)).
Proof.
  unfold count_ok, ok_flags.
  induction outs as [|[j [[] msg]] outs IH]; simpl; [reflexivity | now rewrite IH | exact IH].
Qed.

Lemma ok_flags_length outs : length (ok_flags outs) = length outs.
Proof. apply length_map. Qed.

Lemma jobs_of_length army af dw dod :
  length (jobs_of army af dw dod) = length army + length af + length dw + length dod.
Proof. unfold jobs_of. rewrite !length_app, !length_map. lia. Qed.

Lemma requests_app xs ys : requests (xs ++ ys) = requests xs ++ requests ys.
Proof. apply flat_map_app. Qed.

End Flags.

(** C10, as the spec states it, fails twice.  The Defense-Wide loop puts
    the file name into the url as it is, not percent-encoded (the
    parentheses of [Overview_(Part_1)] stay).  And the names also reach the
    label that is printed: two Air Force entries whose categories differ
    only in an illegal character give the same url and the same path, yet
    the program prints different lines. *)
Lemma names_reach_raw_url_and_label :
  job_url (dw_job_of (nth 3 DW_FILES []))
  = DW_BASE +:+ "/01_Operation_and_Maintenance/O_M_VOL_1_PART_1/Overview_(Part_1).json"
  /\ urllib_parse.quote "Overview_(Part_1).json" = "Overview_%28Part_1%29.json"
  /\ job_url (af_job "a/b" "f" "xml") = job_url (af_job "a:b" "f" "xml")
  /\ job_path (af_job "a/b" "f" "xml") = job_path (af_job "a:b" "f" "xml")
  /\ printed (trace (snd (main_with serve_all [] [["a/b"; "f"; "xml"]] [] [] state0)))
     <> printed (trace (snd (main_with serve_all [] [["a:b"; "f"; "xml"]] [] [] state0))).
Proof.
  split; [reflexivity|]. split; [reflexivity|]. split; [reflexivity|]. split; [reflexivity|].
  intros H. apply (f_equal (fun ls => nth 7 ls EmptyString)) in H.
  vm_compute in H. discriminate.
Qed.

(** C10 (amended). On manifests of the arities the loops unpack, the
    entries reach the run only as the jobs built from them: the url
    (percent-encoded by the Army and Air Force loops, verbatim in the
    Defense-Wide and DoD Summary loops), the path (through
    [safe_filename]) and the printed label.  They never steer it: for two
    manifests of the same shape, in any two environments, the requests of
    each run are a prefix of the urls of its entries in order; when both
    runs return they made the same number of requests, one per entry; and
    if moreover the calls returned [True] at the same positions, the two
    runs end with the same counts. *)
Theorem manifest_strings_do_not_steer :
  forall (w1 w2 : world) (st1 st2 : state) (a1 f1 d1 s1 a2 f2 d2 s2 : list tuple),
  same_shape (a1, f1, d1, s1) (a2, f2, d2, s2) ->
  let ss1 := steps_of a1 f1 d1 s1 in
  let ss2 := steps_of a2 f2 d2 s2 in
  let run1 := download_all w1 a1 f1 d1 s1 st1 in
  let run2 := download_all w2 a2 f2 d2 s2 st2 in
  run1 = for_each (run_step w1) ss1 locals0 st1
  /\ run2 = for_each (run_step w2) ss2 locals0 st2
  /\ fetched ss1 = jobs_of a1 f1 d1 s1
  /\ fetched ss2 = jobs_of a2 f2 d2 s2
  /\ length (jobs_of a1 f1 d1 s1) = length (jobs_of a2 f2 d2 s2)
  /\ exists delta1 delta2,
       trace (snd run1) = trace st1 ++ delta1
       /\ trace (snd run2) = trace st2 ++ delta2
       /\ (exists more, map job_url (jobs_of a1 f1 d1 s1) = requests delta1 ++ more)
       /\ (exists more, map job_url (jobs_of a2 f2 d2 s2) = requests delta2 ++ more)
       /\ forall l1 l2, fst run1 = Ret l1 -> fst run2 = Ret l2 ->
            requests delta1 = map job_url (jobs_of a1 f1 d1 s1)
            /\ requests delta2 = map job_url (jobs_of a2 f2 d2 s2)
            /\ length (requests delta1) = length (requests delta2)
            /\ (ok_flags (outcomes w1 ss1 st1) = ok_flags (outcomes w2 ss2 st2) ->
                  success_count l1 = success_count l2
                  /\ fail_count l1 = fail_count l2
                  /\ length (failures l1) = length (failures l2)).
Proof.
  intros w1 w2 st1 st2 a1 f1 d1 s1 a2 f2 d2 s2 (Hws1 & Hws2 & Ha & Hf & Hd & Hs)
         ss1 ss2 run1 run2.
  assert (Hlen : length (jobs_of a1 f1 d1 s1) = length (jobs_of a2 f2 d2 s2)).
  { rewrite !jobs_of_length. lia. }
  assert (H1 : run1 = for_each (run_step w1) ss1 locals0 st1)
    by now apply download_all_as_steps.
  assert (H2 : run2 = for_each (run_step w2) ss2 locals0 st2)
    by now apply download_all_as_steps.
  split; [exact H1|]. split; [exact H2|].
  split; [apply fetched_steps_of|]. split; [apply fetched_steps_of|].
  split; [exact Hlen|].
  destruct (run_steps_spec w1 ss1 locals0 st1) as (x1 & Ht1 & _ & [m1 Hp1] & _ & _ & Hr1).
  destruct (run_steps_spec w2 ss2 locals0 st2) as (x2 & Ht2 & _ & [m2 Hp2] & _ & _ & Hr2).
  rewrite <- H1 in Ht1, Hr1. rewrite <- H2 in Ht2, Hr2.
  unfold ss1 in Hp1, Hr1. unfold ss2 in Hp2, Hr2.
  rewrite fetched_steps_of in Hp1, Hr1, Hp2, Hr2.
  exists x1, x2. split; [exact Ht1|]. split; [exact Ht2|]. split; [|split].
  - exists (requests m1).
    now rewrite <- requests_calls_of, Hp1, requests_app, requests_calls.
  - exists (requests m2).
    now rewrite <- requests_calls_of, Hp2, requests_app, requests_calls.
  - intros l1 l2 Hl1 Hl2.
    destruct (Hr1 l1 Hl1) as (E1 & Ho1 & Hc1 & _).
    destruct (Hr2 l2 Hl2) as (E2 & Ho2 & Hc2 & _).
    assert (Hq1 : requests x1 = map job_url (jobs_of a1 f1 d1 s1))
      by now rewrite <- requests_calls, Hc1, requests_calls_of.
    assert (Hq2 : requests x2 = map job_url (jobs_of a2 f2 d2 s2))
      by now rewrite <- requests_calls, Hc2, requests_calls_of.
    split; [exact Hq1|]. split; [exact Hq2|].
    split; [now rewrite Hq1, Hq2, !length_map|].
    intros Hflags. fold ss1 in E1. fold ss2 in E2.
    destruct (tally_all_spec (outcomes w1 ss1 st1) locals0) as (S1 & F1 & L1).
    destruct (tally_all_spec (outcomes w2 ss2 st2) locals0) as (S2 & F2 & L2).
    pose proof (count_ok_failures (outcomes w1 ss1 st1)) as C1.
    pose proof (count_ok_failures (outcomes w2 ss2 st2)) as C2.
    assert (Hok : count_ok (outcomes w1 ss1 st1) = count_ok (outcomes w2 ss2 st2))
      by now rewrite !count_ok_flags, Hflags.
    assert (Hn : length (outcomes w1 ss1 st1) = length (outcomes w2 ss2 st2))
      by now rewrite <- !ok_flags_length, Hflags.
    clearbody ss1 ss2.
    rewrite E1, E2, S1, S2, F1, F2, L1, L2. simpl.
    repeat split; lia.
Qed.

(** The amended C10 on two one-entry manifests with different names, both
    served: the same shape, and the same count of successes. *)
Lemma manifest_strings_do_not_steer_witness :
  same_shape ([["Procurement"; "Aircraft Procurement Army"; "xml"]], [], [], [])
             ([["rdte"; "RDTE - Vol 1 - Budget Activity 1"; "xml"]], [], [], [])
  /\ exists l1 l2,
       fst (download_all serve_xml [["Procurement"; "Aircraft Procurement Army"; "xml"]]
              [] [] [] state0) = Ret l1
       /\ fst (download_all serve_xml [["rdte"; "RDTE - Vol 1 - Budget Activity 1"; "xml"]]
                 [] [] [] state0) = Ret l2
       /\ success_count l1 = success_count l2.
Proof.
  assert (Hshape : same_shape
                     ([["Procurement"; "Aircraft Procurement Army"; "xml"]], [], [], [])
                     ([["rdte"; "RDTE - Vol 1 - Budget Activity 1"; "xml"]], [], [], [])).
  { unfold same_shape, well_shaped, arity. repeat split; repeat constructor. }
  split; [exact Hshape|].
  destruct (manifest_strings_do_not_steer serve_xml serve_xml state0 state0 _ _ _ _ _ _ _ _ Hshape)
    as (_ & _ & _ & _ & _ & x1 & x2 & _ & _ & _ & _ & H).
  eexists _, _. split; [vm_compute; reflexivity|]. split; [vm_compute; reflexivity|].
  refine (proj1 (proj2 (proj2 (proj2 (H _ _ _ _))) _)).
  - vm_compute. reflexivity.
  - vm_compute. reflexivity.
  - vm_compute. reflexivity.
Defined.

(** * Further properties of the script *)

(** ** Strings *)

Section Strings.

Lemma append_cons c (a b : string) : String c a +:+ b = String c (a +:+ b).
Proof. reflexivity. Qed.

Lemma append_empty_l (b : string) : EmptyString +:+ b = b.
Proof. reflexivity. Qed.

Lemma length_append (a b : string) :
  String.length (a +:+ b) = String.length a + String.length b.
Proof.
  induction a as [|c a IH]; [reflexivity|]. rewrite append_cons. simpl. now rewrite IH.
Qed.

Lemma length_repeat c n : String.length (PyStr.repeat c n) = n.
Proof. induction n as [|n IH]; simpl; [reflexivity | now rewrite IH]. Qed.

Lemma length_take n s : String.length (PyStr.take n s) = Nat.min n (String.length s).
Proof.
  revert s. induction n as [|n IH]; intros [|c s]; simpl; try reflexivity.
  now rewrite IH.
Qed.

Lemma append_assoc (a b c : string) : (a +:+ b) +:+ c = a +:+ (b +:+ c).
Proof.
  induction a as [|x a IH]; [reflexivity|]. rewrite !append_cons. now rewrite IH.
Qed.

Lemma append_empty_r (a : string) : a +:+ EmptyString = a.
Proof.
  induction a as [|x a IH]; [reflexivity|]. rewrite append_cons. now rewrite IH.
Qed.

Lemma map_chars_append f a b :
  PyStr.map_chars f (a +:+ b) = PyStr.map_chars f a +:+ PyStr.map_chars f b.
Proof.
  induction a as [|x a IH]; [reflexivity|]. rewrite append_cons. simpl.
  now rewrite IH, append_cons.
Qed.

Lemma contains_append c a b :
  PyStr.contains c (a +:+ b) = PyStr.contains c a || PyStr.contains c b.
Proof.
  induction a as [|x a IH]; [reflexivity|]. rewrite append_cons. simpl.
  rewrite IH. now rewrite orb_assoc.
Qed.

End Strings.

Lemma result_line_printed (label : string) (ok : bool) (msg : string) :
  "  [" +:+ PyStr.ljust 4 (if ok then "OK" else "FAIL") +:+ "]  "
    +:+ PyStr.ljust 72 (PyStr.take 72 label) +:+ "  " +:+ msg
  = result_line label ok msg.
Proof.
  assert (Hpad : PyStr.ljust 72 (PyStr.take 72 label)
                 = PyStr.take 72 label +:+ PyStr.repeat " " (72 - String.length label)).
  { unfold PyStr.ljust. rewrite length_take. f_equal. f_equal. lia. }
  unfold result_line. rewrite Hpad.
  destruct ok; simpl; rewrite ?append_assoc; reflexivity.
Qed.

Lemma all_chars_append p a b :
  all_chars p (a +:+ b) = all_chars p a && all_chars p b.
Proof.
  induction a as [|c a IH]; [reflexivity|]. rewrite append_cons. simpl.
  now rewrite IH, andb_assoc.
Qed.

Lemma ascii_only_append a b : ascii_only (a +:+ b) = ascii_only a && ascii_only b.
Proof. apply all_chars_append. Qed.

Lemma all_chars_take p n : forall s,
  all_chars p s = true -> all_chars p (PyStr.take n s) = true.
Proof.
  induction n as [|n IH]; intros [|c s]; simpl; try reflexivity.
  intros [Hc Hs]%andb_true_iff. apply andb_true_iff. split; [exact Hc | apply IH, Hs].
Qed.

Lemma ascii_only_take n s : ascii_only s = true -> ascii_only (PyStr.take n s) = true.
Proof. apply all_chars_take. Qed.

Lemma ascii_only_repeat n : ascii_only (PyStr.repeat " " n) = true.
Proof. induction n as [|n IH]; [reflexivity | exact IH]. Qed.

(** X1. On a label of ASCII characters, [print_result] makes exactly one
    call of [print] and changes nothing else.  What it prints is a head of
    84 characters, all ASCII, followed by the message as it is: the
    status in a bracket of width four, the label cut to 72 characters and
    padded with spaces to 72, and two spaces.  So the message starts in
    column 84, however long the label is. *)
Theorem print_result_layout : forall (label : string) (ok : bool) (msg : string) (st : state),
  ascii_only label = true ->
  let head := "  [" +:+ (if ok then "OK  " else "FAIL") +:+ "]  "
              +:+ PyStr.take 72 label +:+ PyStr.repeat " " (72 - String.length label)
              +:+ "  " in
  print_result label ok msg st = (Ret tt, emit (EvPrint (head +:+ msg)) st)
  /\ String.length head = 84
  /\ ascii_only head = true.
Proof.
  intros label ok msg st Hl head.
  assert (Hhead : head +:+ msg = result_line label ok msg).
  { unfold head, result_line. destruct ok; rewrite ?append_assoc; reflexivity. }
  split; [|split].
  - rewrite Hhead. unfold print_result, print. now rewrite result_line_printed.
  - unfold head. rewrite !length_append, length_take, length_repeat.
    destruct ok; simpl String.length; lia.
  - unfold head. rewrite !ascii_only_append, ascii_only_repeat, (ascii_only_take 72 _ Hl).
    now destruct ok.
Qed.

(** X1 on the label of the first Army entry and a size message. *)
Lemma print_result_layout_witness :
  ascii_only "Army/Military Personnel/Military Personnel Army Volume 1.xml" = true
  /\ exists head,
       print_result "Army/Military Personnel/Military Personnel Army Volume 1.xml"
         true "812.4 KB" state0
       = (Ret tt, emit (EvPrint (head +:+ "812.4 KB")) state0)
       /\ String.length head = 84.
Proof.
  split; [reflexivity|].
  destruct (print_result_layout
              "Army/Military Personnel/Military Personnel Army Volume 1.xml"
              true "812.4 KB" state0 eq_refl) as (Hp & Hn & _).
  eexists. split; [exact Hp | exact Hn].
Defined.

Lemma safe_filename_fixed (a : string) :
  safe_filename a = a <-> all_chars (fun c => negb (illegal c)) a = true.
Proof.
  rewrite safe_filename_as_map.
  induction a as [|c a IH]; simpl; [tauto|].
  unfold sanitize at 1. destruct (illegal c) eqn:Hc; simpl.
  - split; [|discriminate]. intros [= Hh _]. subst c. discriminate.
  - rewrite <- IH. split; [now intros [= ->] | now intros ->].
Qed.

Lemma all_chars_legal (a : string) :
  all_chars (fun c => negb (illegal c)) a = true
  <-> forall c, illegal c = true -> PyStr.contains c a = false.
Proof.
  induction a as [|x a IH]; simpl; [tauto|].
  rewrite andb_true_iff, IH, negb_true_iff. split.
  - intros [Hx Ha] c Hc. rewrite (Ha c Hc), orb_false_r.
    destruct (Ascii.eqb_spec x c) as [->|]; congruence.
  - intros H. split.
    + destruct (illegal x) eqn:Hx; [|reflexivity].
      specialize (H x Hx). now rewrite Ascii.eqb_refl in H.
    + intros c Hc. now destruct (orb_false_elim _ _ (H c Hc)).
Qed.

(** X2. [safe_filename] works character by character: it distributes over
    concatenation; a one-character name becomes the underscore when the
    character is one of backslash, slash, colon, star, question mark,
    double quote, less-than, greater-than and bar, and stays as it is
    otherwise; and [safe_filename] returns its argument unchanged exactly
    when the argument holds none of those nine characters. *)
Theorem safe_filename_pointwise : forall a b : string,
  let nine := ["\"; "/"; ":"; "*"; "?"; "034"; "<"; ">"; "|"]%char in
  safe_filename (a +:+ b) = safe_filename a +:+ safe_filename b
  /\ (forall c, In c nine -> safe_filename (String c EmptyString) = "_")
  /\ (forall c, ~ In c nine -> safe_filename (String c EmptyString) = String c EmptyString)
  /\ (safe_filename a = a <-> forall c, In c nine -> PyStr.contains c a = false).
Proof.
  intros a b nine. subst nine. repeat split.
  - rewrite !safe_filename_as_map. apply map_chars_append.
  - intros c Hc%illegal_nine. rewrite safe_filename_as_map. simpl.
    unfold sanitize. now rewrite Hc.
  - intros c Hc%legal_nine. rewrite safe_filename_as_map. simpl.
    now rewrite sanitize_keeps.
  - intros H c Hc%illegal_nine. revert c Hc. now apply all_chars_legal, safe_filename_fixed.
  - intros H. apply safe_filename_fixed, all_chars_legal.
    intros c Hc%illegal_nine. now apply H.
Qed.

Lemma safe_filename_eq (s1 s2 : string) :
  safe_filename s1 = safe_filename s2 <-> same_when_safe s1 s2 = true.
Proof.
  rewrite !safe_filename_as_map.
  assert (Hc : forall c1 c2,
             sanitize c1 = sanitize c2
             <-> Ascii.eqb c1 c2 || (masked c1 && masked c2) = true).
  { intros c1 c2. unfold sanitize, masked.
    destruct (Ascii.eqb_spec c1 c2) as [->|Hne]; simpl; [tauto|].
    destruct (illegal c1) eqn:H1, (illegal c2) eqn:H2; simpl.
    - tauto.
    - destruct (Ascii.eqb_spec c2 "_") as [->|N]; [tauto|].
      split; [intros E; now symmetry in E | discriminate].
    - rewrite andb_true_r. destruct (Ascii.eqb_spec c1 "_") as [->|N]; [tauto|].
      split; [intros E; contradiction | discriminate].
    - split; [intros E; contradiction|].
      destruct (Ascii.eqb_spec c1 "_") as [->|N1]; [|discriminate].
      destruct (Ascii.eqb_spec c2 "_") as [->|N2]; [contradiction | discriminate]. }
  revert s2. induction s1 as [|c1 r1 IH]; intros [|c2 r2]; simpl;
    try (split; [discriminate | discriminate]); [tauto|].
  rewrite andb_true_iff, <- Hc, <- IH.
  split; [intros [= -> ->]; tauto | intros [-> ->]; reflexivity].
Qed.

Lemma same_when_safe_spec : forall s1 s2 : string,
  same_when_safe s1 s2 = true
  <-> String.length s1 = String.length s2
      /\ forall i c1 c2, String.get i s1 = Some c1 -> String.get i s2 = Some c2 ->
            c1 = c2 \/ (masked c1 = true /\ masked c2 = true).
Proof.
  induction s1 as [|c1 r1 IH]; intros [|c2 r2]; simpl.
  - split; [|reflexivity]. intros _. split; [reflexivity|]. intros i c1 c2 H. discriminate.
  - split; [discriminate | intros [H _]; discriminate].
  - split; [discriminate | intros [H _]; discriminate].
  - rewrite andb_true_iff, IH, orb_true_iff, andb_true_iff. split.
    + intros [Hh [Hl Ht]]. split; [now rewrite Hl|].
      intros [|i] x1 x2; simpl.
      * intros [= <-] [= <-]. destruct Hh as [E%Ascii.eqb_eq|E]; auto.
      * apply Ht.
    + intros [Hl Ht]. split; [|split].
      * destruct (Ht 0 c1 c2 eq_refl eq_refl) as [->|E]; [left; apply Ascii.eqb_refl | now right].
      * now injection Hl.
      * intros i x1 x2. apply (Ht (S i)).
Qed.

(** X3. [safe_filename] is not injective: [a/b] and [a:b] get the same
    result.  Its collisions are exactly these: two names get the same
    result if and only if they have the same length and, position by
    position, the same character or two characters that are both among
    backslash, slash, colon, star, question mark, double quote, less-than,
    greater-than, bar and the underscore. *)
Theorem safe_filename_collisions :
  let ten := ["\"; "/"; ":"; "*"; "?"; "034"; "<"; ">"; "|"; "_"]%char in
  ~ (forall s1 s2 : string, safe_filename s1 = safe_filename s2 -> s1 = s2)
  /\ safe_filename "a/b" = safe_filename "a:b"
  /\ (forall s1 s2 : string,
        safe_filename s1 = safe_filename s2
        <-> String.length s1 = String.length s2
            /\ forall i c1 c2, String.get i s1 = Some c1 -> String.get i s2 = Some c2 ->
                  c1 = c2 \/ (In c1 ten /\ In c2 ten)).
Proof.
  intros ten. subst ten. split; [|split].
  - intros H. specialize (H "a/b" "a:b" eq_refl). discriminate.
  - reflexivity.
  - intros s1 s2. rewrite safe_filename_eq, same_when_safe_spec.
    split; intros [Hl H]; (split; [exact Hl|]); intros i c1 c2 H1 H2;
      (destruct (H i c1 c2 H1 H2) as [E|[E1 E2]]; [now left | right]);
      split; now apply masked_ten.
Qed.

(** The labels [main] passes to [print_result] are all ASCII. *)
Example manifest_labels_are_ascii :
  forallb (fun j => ascii_only (job_label j)) all_jobs = true.
Proof. vm_compute. reflexivity. Qed.

(** ** Paths *)

Section Paths.

Lemma startswith_absent ch s : PyStr.contains ch s = false -> PyStr.startswith ch s = false.
Proof. destruct s as [|c s]; simpl; [reflexivity|]. now intros [H _]%orb_false_iff. Qed.

Lemma endswith_absent ch s : PyStr.contains ch s = false -> PyStr.endswith ch s = false.
Proof.
  induction s as [|c s IH]; simpl; [reflexivity|].
  intros [Hc Hs]%orb_false_iff. destruct s; [exact Hc | now apply IH].
Qed.

Lemma endswith_append ch a b :
  b <> EmptyString -> PyStr.endswith ch (a +:+ b) = PyStr.endswith ch b.
Proof.
  intros Hb. induction a as [|c a IH]; [reflexivity|].
  rewrite append_cons. simpl. rewrite IH.
  destruct (a +:+ b) eqn:E; [|reflexivity].
  destruct a; [now rewrite append_empty_l in E | discriminate].
Qed.

Lemma endswith_after ch x a b :
  b <> EmptyString -> PyStr.endswith ch (a +:+ String x b) = PyStr.endswith ch b.
Proof.
  intros Hb. rewrite endswith_append by discriminate.
  simpl. destruct b; [contradiction | reflexivity].
Qed.

Lemma split_absent ch s : PyStr.contains ch s = false -> PyStr.split ch s = [s].
Proof.
  induction s as [|c s IH]; simpl; [reflexivity|].
  intros [Hc Hs]%orb_false_iff. rewrite Hc, (IH Hs). reflexivity.
Qed.

Lemma split_append ch a b :
  PyStr.contains ch a = false ->
  PyStr.split ch (a +:+ String ch b) = a :: PyStr.split ch b.
Proof.
  induction a as [|c a IH]; intros Ha.
  - rewrite append_empty_l. simpl. now rewrite Ascii.eqb_refl.
  - simpl in Ha. apply orb_false_iff in Ha as [Hc Ha].
    rewrite append_cons. simpl. rewrite Hc, (IH Ha). reflexivity.
Qed.

Lemma join_step_plain path b :
  path <> EmptyString -> PyStr.endswith os_path.sep path = false ->
  PyStr.startswith os_path.sep b = false ->
  os_path.join_step path b = path +:+ String os_path.sep b.
Proof.
  intros Hp He Hb. unfold os_path.join_step. rewrite Hb, He.
  destruct path; [contradiction | reflexivity].
Qed.

Lemma join_step_after_sep path b :
  PyStr.endswith os_path.sep path = true ->
  PyStr.startswith os_path.sep b = false ->
  os_path.join_step path b = path +:+ b.
Proof.
  intros He Hb. unfold os_path.join_step. rewrite Hb, He, orb_true_r. reflexivity.
Qed.

Lemma safe_filename_no_sep s : PyStr.contains os_path.sep (safe_filename s) = false.
Proof. rewrite safe_filename_as_map. now apply contains_map_sanitize. Qed.

Lemma safe_filename_empty s : safe_filename s = EmptyString <-> s = EmptyString.
Proof.
  rewrite safe_filename_as_map. destruct s; simpl; split; try reflexivity; discriminate.
Qed.

Lemma file_name_start f x :
  PyStr.startswith os_path.sep (safe_filename f +:+ "." +:+ x) = false.
Proof.
  pose proof (safe_filename_no_sep f) as H.
  destruct (safe_filename f) as [|c r]; [reflexivity|].
  rewrite append_cons. simpl in *. now apply orb_false_iff in H as [H _].
Qed.

(** The path of a service loop for a category that is not empty. *)
Lemma service_path svc c f x :
  svc <> EmptyString -> PyStr.contains os_path.sep svc = false ->
  c <> EmptyString ->
  os_path.join OUTPUT_DIR [svc; safe_filename c; safe_filename f +:+ "." +:+ x]
  = OUTPUT_DIR +:+ "/" +:+ svc +:+ "/" +:+ safe_filename c +:+ "/"
      +:+ safe_filename f +:+ "." +:+ x.
Proof.
  intros Hsvc Hsep Hc. unfold os_path.join. simpl fold_left.
  assert (Hcat : safe_filename c <> EmptyString) by now rewrite safe_filename_empty.
  rewrite (join_step_plain OUTPUT_DIR svc); [|discriminate|reflexivity|now apply startswith_absent].
  rewrite (join_step_plain _ (safe_filename c)).
  - rewrite join_step_plain.
    + rewrite !append_assoc. reflexivity.
    + intros E. apply (f_equal String.length) in E. rewrite !length_append in E.
      simpl in E. lia.
    + rewrite endswith_after by assumption.
      apply endswith_absent, safe_filename_no_sep.
    + apply file_name_start.
  - discriminate.
  - rewrite endswith_after by assumption. now apply endswith_absent.
  - apply startswith_absent, safe_filename_no_sep.
Qed.

(** The path of a service loop for the empty category: [os.path.join]
    adds no separator after a component that ends with one. *)
Lemma service_path_empty svc f x :
  svc <> EmptyString -> PyStr.contains os_path.sep svc = false ->
  os_path.join OUTPUT_DIR [svc; safe_filename EmptyString; safe_filename f +:+ "." +:+ x]
  = OUTPUT_DIR +:+ "/" +:+ svc +:+ "/" +:+ safe_filename f +:+ "." +:+ x.
Proof.
  intros Hsvc Hsep. unfold os_path.join. simpl fold_left.
  rewrite (join_step_plain OUTPUT_DIR svc); [|discriminate|reflexivity|now apply startswith_absent].
  change (safe_filename EmptyString) with EmptyString.
  rewrite (join_step_plain _ EmptyString).
  - rewrite join_step_after_sep.
    + rewrite !append_assoc. reflexivity.
    + rewrite endswith_append by discriminate. reflexivity.
    + apply file_name_start.
  - discriminate.
  - rewrite endswith_after by assumption. now apply endswith_absent.
  - reflexivity.
Qed.

Lemma split_service_path svc cat file :
  PyStr.contains os_path.sep svc = false ->
  PyStr.contains os_path.sep cat = false ->
  PyStr.contains os_path.sep file = false ->
  PyStr.split os_path.sep (OUTPUT_DIR +:+ "/" +:+ svc +:+ "/" +:+ cat +:+ "/" +:+ file)
  = [OUTPUT_DIR; svc; cat; file].
Proof.
  intros Hs Hc Hf.
  change ("/" +:+ svc +:+ "/" +:+ cat +:+ "/" +:+ file)
    with (String os_path.sep (svc +:+ String os_path.sep (cat +:+ String os_path.sep file))).
  rewrite split_append by reflexivity.
  rewrite split_append by assumption.
  rewrite split_append by assumption.
  now rewrite split_absent.
Qed.

Lemma service_paths_anchored (category path filename ext : string) :
  (exists rest, job_path (army_job category filename ext) = "fy2026_budget/Army/" +:+ rest)
  /\ (exists rest, job_path (af_job category filename ext)
                   = "fy2026_budget/AirForce/" +:+ rest)
  /\ (exists rest, job_path (dw_job category path filename ext)
                   = "fy2026_budget/DefenseWide/" +:+ rest).
Proof.
  unfold army_job, af_job, dw_job. cbn [job_path].
  destruct category as [|c r].
  - repeat split; eexists;
      (rewrite service_path_empty; [reflexivity | discriminate | reflexivity]).
  - repeat split; eexists;
      (rewrite service_path; [reflexivity | discriminate | reflexivity | discriminate]).
Qed.

End Paths.

(** X4. For any entry of a service loop whose category is not empty and
    whose extension holds no separator, the destination has exactly the
    four components [fy2026_budget], the service folder, the sanitised
    category and the sanitised file name with its extension.  If neither
    of the last two is [.] or [..], every component below [fy2026_budget]
    is a plain name, so the destination lies in that folder of its
    service.  [safe_filename] itself lets [.] and [..] through. *)
Theorem service_paths_in_general : forall category path filename ext : string,
  category <> EmptyString ->
  PyStr.contains "/" ext = false ->
  let cat := safe_filename category in
  let file := safe_filename filename +:+ "." +:+ ext in
  PyStr.split "/" (job_path (army_job category filename ext)) = [OUTPUT_DIR; "Army"; cat; file]
  /\ PyStr.split "/" (job_path (af_job category filename ext))
     = [OUTPUT_DIR; "AirForce"; cat; file]
  /\ PyStr.split "/" (job_path (dw_job category path filename ext))
     = [OUTPUT_DIR; "DefenseWide"; cat; file]
  /\ (cat <> "." -> cat <> ".." -> file <> "." -> file <> ".." ->
        strictly_inside OUTPUT_DIR (job_path (army_job category filename ext)) = true
        /\ strictly_inside OUTPUT_DIR (job_path (af_job category filename ext)) = true
        /\ strictly_inside OUTPUT_DIR (job_path (dw_job category path filename ext)) = true)
  /\ safe_filename "." = "."
  /\ safe_filename ".." = "..".
Proof.
  intros category path filename ext Hc Hx cat file.
  assert (Hplain : cat <> "." -> cat <> ".." -> file <> "." -> file <> ".." ->
            plain_component cat && plain_component file = true).
  { intros H1 H2 H3 H4. unfold plain_component.
    assert (Hcat0 : cat <> EmptyString).
    { unfold cat. rewrite safe_filename_as_map.
      destruct category; [contradiction | discriminate]. }
    assert (Hfile0 : file <> EmptyString).
    { unfold file. destruct (safe_filename filename); discriminate. }
    apply String.eqb_neq in H1, H2, H3, H4, Hcat0, Hfile0.
    now rewrite H1, H2, H3, H4, Hcat0, Hfile0. }
  assert (Hcat : PyStr.contains os_path.sep cat = false) by apply safe_filename_no_sep.
  assert (Hfile : PyStr.contains os_path.sep file = false).
  { unfold file. rewrite !contains_append, safe_filename_no_sep. simpl.
    change os_path.sep with "/"%char. now rewrite Hx. }
  assert (Hsplit : forall svc, svc <> EmptyString -> PyStr.contains os_path.sep svc = false ->
             PyStr.split "/" (os_path.join OUTPUT_DIR [svc; cat; file])
             = [OUTPUT_DIR; svc; cat; file]).
  { intros svc H1 H2. unfold cat, file. rewrite service_path by assumption.
    now apply split_service_path. }
  assert (Hin : forall svc, svc <> EmptyString -> PyStr.contains os_path.sep svc = false ->
             plain_component svc = true ->
             strictly_inside OUTPUT_DIR (os_path.join OUTPUT_DIR [svc; cat; file])
             = plain_component cat && plain_component file).
  { intros svc H1 H2 H3. unfold strictly_inside.
    change os_path.sep with "/"%char. rewrite (Hsplit svc H1 H2).
    simpl forallb. rewrite H3, andb_true_r. reflexivity. }
  unfold army_job, af_job, dw_job. cbn [job_path]. fold cat file.
  split; [|split; [|split; [|split; [|split]]]]; try reflexivity.
  1-3: apply Hsplit; [discriminate | reflexivity].
  intros H1 H2 H3 H4. rewrite !Hin, (Hplain H1 H2 H3 H4) by (reflexivity || discriminate).
  auto.
Qed.

(** X4 on an entry of the shape the manifests have. *)
Lemma service_paths_in_general_witness :
  "rdte" <> EmptyString
  /\ PyStr.contains "/" "xml" = false
  /\ PyStr.split "/" (job_path (army_job "rdte" "RDTE - Vol 1" "xml"))
     = [OUTPUT_DIR; "Army"; "rdte"; "RDTE - Vol 1.xml"].
Proof.
  split; [discriminate|]. split; [reflexivity|].
  destruct (service_paths_in_general "rdte" EmptyString "RDTE - Vol 1" "xml") as [H _].
  - discriminate.
  - reflexivity.
  - exact H.
Defined.

(** X5. With an empty category a service loop loses the category level:
    [os.path.join] adds no separator after a component that already ends
    with one, so the file lands directly in the service folder. *)
Theorem empty_category_loses_a_level : forall path filename ext : string,
  job_path (army_job EmptyString filename ext)
  = "fy2026_budget/Army/" +:+ safe_filename filename +:+ "." +:+ ext
  /\ job_path (af_job EmptyString filename ext)
     = "fy2026_budget/AirForce/" +:+ safe_filename filename +:+ "." +:+ ext
  /\ job_path (dw_job EmptyString path filename ext)
     = "fy2026_budget/DefenseWide/" +:+ safe_filename filename +:+ "." +:+ ext.
Proof.
  intros path filename ext. unfold army_job, af_job, dw_job. cbn [job_path].
  repeat split; (rewrite service_path_empty; [reflexivity | discriminate | reflexivity]).
Qed.

(** X6. The three service loops always write below their service folder,
    whatever the entry; the DoD Summary loop joins its subfolder and file
    name unsanitised, so a file name that starts with a separator becomes
    the destination by itself. *)
Theorem only_service_loops_are_anchored :
  (forall category path filename ext : string,
      (exists rest, job_path (army_job category filename ext) = "fy2026_budget/Army/" +:+ rest)
      /\ (exists rest, job_path (af_job category filename ext)
                       = "fy2026_budget/AirForce/" +:+ rest)
      /\ (exists rest, job_path (dw_job category path filename ext)
                       = "fy2026_budget/DefenseWide/" +:+ rest))
  /\ (forall url subfolder fname : string,
         PyStr.startswith "/" fname = true ->
         job_path (dod_job url subfolder fname) = fname).
Proof.
  split.
  - exact service_paths_anchored.
  - intros url subfolder fname H. unfold dod_job, os_path.join. cbn [job_path fold_left].
    unfold os_path.join_step at 1. change os_path.sep with "/"%char. now rewrite H.
Qed.

(** X6 on a file name that is an absolute path. *)
Lemma only_service_loops_are_anchored_witness :
  PyStr.startswith "/" "/tmp/x.json" = true
  /\ job_path (dod_job "https://example.org/x.json" "DoD_Summary" "/tmp/x.json") = "/tmp/x.json".
Proof.
  split; [reflexivity|].
  apply (proj2 only_service_loops_are_anchored). reflexivity.
Defined.

(** ** More on [download_file] *)

(** X7. What [os.makedirs] or [Request] raises is not caught, even when it
    is of a class the handlers name: [download_file] raises it unchanged.
    After a failed [os.makedirs] nothing else was attempted, and the only
    directories it can have left behind are leading ones of the chain
    that runs from the topmost missing directory down to the parent of
    [dest]; after a failed [Request] that whole chain exists but no
    request was made; in both cases no file was touched. *)
Theorem download_file_stops_before_try :
  forall (w : world) (url dest : string) (st : state) (e : exn),
  let d := os_path.dirname dest in
  (makedirs_fault w (trace st) d = Some e ->
     fst (download_file w url dest st) = Raise e
     /\ trace (snd (download_file w url dest st)) = trace st ++ [EvMakedirs d]
     /\ dirs (snd (download_file w url dest st))
        = list_to_set (firstn (makedirs_left w (trace st) d) (os_path.ancestors d)) ∪ dirs st
     /\ files (snd (download_file w url dest st)) = files st)
  /\ (makedirs_fault w (trace st) d = None -> request_fault w url = Some e ->
        fst (download_file w url dest st) = Raise e
        /\ trace (snd (download_file w url dest st)) = trace st ++ [EvMakedirs d]
        /\ dirs (snd (download_file w url dest st))
           = list_to_set (os_path.ancestors d) ∪ dirs st
        /\ files (snd (download_file w url dest st)) = files st).
Proof.
  intros w url dest st e d. unfold download_file, bind, os_makedirs, Request. fold d.
  split.
  - intros ->. repeat split.
  - intros -> ->. repeat split.
Qed.

(** X7 on a url without a scheme, which [Request] rejects with a
    [ValueError]: an instance of [Exception], yet not caught. *)
Lemma download_file_stops_before_try_witness :
  fst (download_file serve_all "example.org/a.xml" "out/a.xml" state0)
  = Raise (Exception "ValueError" "unknown url type: 'example.org/a.xml'")
  /\ requests (trace (snd (download_file serve_all "example.org/a.xml" "out/a.xml" state0))) = [].
Proof.
  destruct (download_file_stops_before_try serve_all "example.org/a.xml" "out/a.xml" state0
              (Exception "ValueError" "unknown url type: 'example.org/a.xml'")) as [_ H].
  destruct (H eq_refl eq_refl) as (Hr & Ht & _).
  split; [exact Hr|]. rewrite Ht. reflexivity.
Defined.

(** X8. A failure while saving is reported, not undone.  If [open]
    raises an [Exception], the call returns [False] and the files are as
    before.  If the write raises one after [k] bytes, the call returns
    [False] and the destination is left holding those first [k] bytes of
    the body, whatever it held before: the partial file is not removed. *)
Theorem failed_save_is_not_undone :
  forall (w : world) (url dest : string) (st : state) (data : list Byte.byte) (e : exn),
  let d := os_path.dirname dest in
  let h1 := trace st ++ [EvMakedirs d] in
  let h2 := h1 ++ [EvUrlopen url HEADERS 120] in
  let h3 := h2 ++ [EvOpenWb dest] in
  makedirs_fault w (trace st) d = None ->
  request_fault w url = None ->
  net w h1 url = Body data ->
  isinstance e cls_Exception = true ->
  (open_fault w h2 dest = Some e ->
     fst (download_file w url dest st) = Ret (false, reason_of e)
     /\ files (snd (download_file w url dest st)) = files st)
  /\ (forall k, open_fault w h2 dest = None -> write_fault w h3 dest data = Some (e, k) ->
        fst (download_file w url dest st) = Ret (false, reason_of e)
        /\ files (snd (download_file w url dest st)) !! dest = Some (firstn k data)
        /\ forall p, p <> dest ->
             files (snd (download_file w url dest st)) !! p = files st !! p).
Proof.
  intros w url dest st data e d h1 h2 h3 Hmk Hreq Hnet He.
  rewrite (download_file_reaches_try w url dest st Hmk Hreq), try_except_clauses.
  unfold try_body, bind, urlopen_read, open_write, ret. simpl. fold d. fold h1.
  rewrite Hnet. simpl. fold h1 h2 h3. split.
  - intros ->. rewrite He. split; reflexivity.
  - intros k -> ->. rewrite He. simpl. repeat split.
    + apply lookup_insert_eq.
    + intros p Hp. rewrite !lookup_insert_ne by congruence. reflexivity.
Qed.

(** X8 on a disk that fills up after ten bytes. *)
Lemma failed_save_is_not_undone_witness :
  fst (download_file disk_full "https://example.org/a.xml" "out/a.xml" state0)
  = Ret (false, "[Errno 28] No space left on device")
  /\ files (snd (download_file disk_full "https://example.org/a.xml" "out/a.xml" state0))
       !! "out/a.xml" = Some (list_byte_of_string "https://ex").
Proof.
  destruct (failed_save_is_not_undone disk_full "https://example.org/a.xml" "out/a.xml" state0
              (list_byte_of_string "https://example.org/a.xml")
              (Exception "OSError" "[Errno 28] No space left on device")
              eq_refl eq_refl eq_refl eq_refl) as [_ H].
  destruct (H 10 eq_refl eq_refl) as (Hr & Hf & _).
  split; [exact Hr | exact Hf].
Defined.

(** ** What a run leaves in the file store *)

Section Frame.

Context (w : world).

Lemma only_saved_to_refl ps st : only_saved_to ps st st.
Proof. unfold only_saved_to. repeat split; auto. Qed.

Lemma only_saved_to_trans ps st1 st2 st3 :
  only_saved_to ps st1 st2 -> only_saved_to ps st2 st3 -> only_saved_to ps st1 st3.
Proof.
  intros (A1 & B1 & C1 & D1) (A2 & B2 & C2 & D2). repeat split.
  - intros p Hp. now rewrite A2, A1.
  - auto.
  - set_solver.
  - intros d Hd. destruct (D2 d Hd) as [H|H]; auto.
Qed.

Lemma only_saved_to_mono ps qs st st' :
  (forall p, In p ps -> In p qs) -> only_saved_to ps st st' -> only_saved_to qs st st'.
Proof.
  intros Hsub (A & B & C & D). repeat split; auto.
  intros d Hd. destruct (D d Hd) as [H|(p & Hp & H)]; [now left|right].
  exists p. auto.
Qed.

Lemma only_saved_to_emit ps ev st : only_saved_to ps st (emit ev st).
Proof. unfold only_saved_to. simpl. repeat split; auto. Qed.

Lemma download_file_frame url dest st :
  only_saved_to [dest] st (snd (download_file w url dest st)).
Proof.
  unfold download_file, bind, os_makedirs, Request.
  assert (Hnew : forall (ds : list string) (d : string),
             (forall x, In x ds -> In x (os_path.ancestors (os_path.dirname dest))) ->
             d ∈ (list_to_set ds ∪ dirs st : gset string) ->
             d ∈ dirs st
             \/ exists p, In p [dest] /\ In d (os_path.ancestors (os_path.dirname p))).
  { intros ds d Hds [Hin%elem_of_list_to_set%list_elem_of_In | Hin]%elem_of_union; auto.
    right. exists dest. split; [now left | auto]. }
  assert (Hdir : forall st' ds, files st' = files st ->
             (forall x, In x ds -> In x (os_path.ancestors (os_path.dirname dest))) ->
             dirs st' = list_to_set ds ∪ dirs st ->
             only_saved_to [dest] st st').
  { intros st' ds Hf Hds Hd. unfold only_saved_to. rewrite Hf, Hd. simpl.
    repeat split; auto.
    - apply union_subseteq_r.
    - intros d. now apply Hnew. }
  assert (Hfile : forall st' data, files st' = <[dest := data]> (files st) ->
             dirs st' = list_to_set (os_path.ancestors (os_path.dirname dest)) ∪ dirs st ->
             only_saved_to [dest] st st').
  { intros st' data Hf Hd. unfold only_saved_to. rewrite Hf, Hd. simpl. repeat split.
    - intros p Hp. apply lookup_insert_ne. tauto.
    - intros p Hp. destruct (decide (dest = p)) as [->|Hne].
      + rewrite lookup_insert_eq. eauto.
      + now rewrite lookup_insert_ne.
    - apply union_subseteq_r.
    - intros d. now apply Hnew. }
  destruct (makedirs_fault w (trace st) _) as [e|].
  { apply (Hdir _ (firstn (makedirs_left w (trace st) (os_path.dirname dest))
                     (os_path.ancestors (os_path.dirname dest)))); try reflexivity.
    intros x Hx. rewrite <- (firstn_skipn (makedirs_left w (trace st) (os_path.dirname dest))).
    apply in_or_app. now left. }
  destruct (request_fault w url) as [e|]; unfold raise, ret.
  { now apply (Hdir _ (os_path.ancestors (os_path.dirname dest))). }
  rewrite try_except_clauses.
  unfold try_body, bind, urlopen_read, open_write, ret. simpl.
  destruct (net w _ url) as [e|e|data].
  1,2: destruct (isinstance e cls_Exception);
       now apply (Hdir _ (os_path.ancestors (os_path.dirname dest))).
  destruct (open_fault w _ dest) as [e|].
  { destruct (isinstance e cls_Exception);
      now apply (Hdir _ (os_path.ancestors (os_path.dirname dest))). }
  destruct (write_fault w _ dest data) as [[e k]|].
  { destruct (isinstance e cls_Exception); apply (Hfile _ (firstn k data)); simpl;
      try reflexivity; apply insert_insert_eq. }
  apply (Hfile _ data); simpl; try reflexivity. apply insert_insert_eq.
Qed.

Lemma run_step_frame s l st :
  only_saved_to (map job_path (fetched [s])) st (snd (run_step w s l st)).
Proof.
  destruct s as [line|j]; simpl.
  - apply only_saved_to_emit.
  - rewrite process_unfold.
    pose proof (download_file_frame (job_url j) (job_path j) st) as H.
    destruct (download_file w (job_url j) (job_path j) st) as [[[ok msg]|e] st1];
      simpl in H |- *; [|exact H].
    eapply only_saved_to_trans; [exact H|].
    eapply only_saved_to_trans; apply only_saved_to_emit.
Qed.

Lemma run_steps_frame ss : forall l st,
  only_saved_to (map job_path (fetched ss)) st (snd (for_each (run_step w) ss l st)).
Proof.
  induction ss as [|s ss IH]; intros l st; [apply only_saved_to_refl|].
  rewrite for_each_cons.
  pose proof (run_step_frame s l st) as H1.
  destruct (run_step w s l st) as [[l1|e] st1]; simpl in H1.
  - eapply only_saved_to_trans.
    + eapply only_saved_to_mono; [|exact H1].
      intros p Hp. change (s :: ss) with ([s] ++ ss).
      rewrite fetched_app, map_app. apply in_or_app. now left.
    + eapply only_saved_to_mono; [|apply IH].
      intros p Hp. change (s :: ss) with ([s] ++ ss).
      rewrite fetched_app, map_app. apply in_or_app. now right.
  - eapply only_saved_to_mono; [|exact H1].
    intros p Hp. change (s :: ss) with ([s] ++ ss).
    rewrite fetched_app, map_app. apply in_or_app. now left.
Qed.

Lemma print_failures_frame ps fs : forall st,
  only_saved_to ps st (snd (for_each print_failure fs tt st)).
Proof.
  induction fs as [|[[label url] msg] fs IH]; intros st; [apply only_saved_to_refl|].
  simpl. unfold bind, print. simpl.
  eapply only_saved_to_trans; [|apply IH].
  eapply only_saved_to_trans; [apply only_saved_to_emit|].
  eapply only_saved_to_trans; apply only_saved_to_emit.
Qed.

Lemma banner_frame ps st : only_saved_to ps st (snd (banner st)).
Proof. unfold only_saved_to. simpl. repeat split; auto. Qed.

Lemma report_frame ps l st : only_saved_to ps st (snd (report w l st)).
Proof.
  unfold report, bind, print. simpl.
  destruct (failures l) as [|f fs].
  - simpl. unfold only_saved_to. simpl. repeat split; auto.
  - eapply only_saved_to_trans; [|apply print_failures_frame].
    unfold only_saved_to. simpl. repeat split; auto.
Qed.

End Frame.

(** X9. A run of [main] leaves every file other than the 98 destinations
    as it was, removes no file and no directory, and every directory it
    creates is the parent directory of one of the destinations or one of
    the directories above that parent, as [os.makedirs] creates them
    ([fy2026_budget] and [fy2026_budget/Army] for the first entry); this
    holds whether [main] returns or stops on an exception. *)
Theorem main_touches_only_its_destinations : forall (w : world) (st : state),
  let st' := snd (main w st) in
  (forall p, ~ In p (map job_path all_jobs) -> files st' !! p = files st !! p)
  /\ (forall p, is_Some (files st !! p) -> is_Some (files st' !! p))
  /\ dirs st ⊆ dirs st'
  /\ (forall d, d ∈ dirs st' ->
        d ∈ dirs st
        \/ exists p, In p (map job_path all_jobs)
                     /\ In d (os_path.ancestors (os_path.dirname p))).
Proof.
  intros w st. change (only_saved_to (map job_path all_jobs) st (snd (main w st))).
  unfold main. rewrite main_with_unfold.
  rewrite (download_all_as_steps w _ _ _ _ _ manifests_well_shaped).
  pose proof (run_steps_frame w (steps_of ARMY_FILES AF_FILES DW_FILES DOD_SUMMARY)
                locals0 (snd (banner st))) as H.
  rewrite fetched_steps_of in H.
  change (jobs_of ARMY_FILES AF_FILES DW_FILES DOD_SUMMARY) with all_jobs in H.
  pose proof (banner_frame (map job_path all_jobs) st) as Hb.
  destruct (for_each (run_step w) _ locals0 (snd (banner st))) as [[l|e] st1];
    cbn [snd] in H.
  - eapply only_saved_to_trans; [exact Hb|].
    eapply only_saved_to_trans; [exact H|]. apply report_frame.
  - cbn [snd]. eapply only_saved_to_trans; [exact Hb | exact H].
Qed.

(** ** What a run prints *)

Section Stdout.

Context (w : world).







End Stdout.




(** ** Malformed entries *)

Section Arity.

Context (w : world).

Lemma for_each_returns_arity (body : tuple -> locals -> M locals) n ts :
  (forall t l st, length t <> n -> exists e, fst (body t l st) = Raise e) ->
  forall l st l', fst (for_each body ts l st) = Ret l' -> arity n ts.
Proof.
  intros Hbad. induction ts as [|t ts IH]; intros l st l' Hret; [constructor|].
  simpl in Hret. unfold bind in Hret.
  destruct (Nat.eq_dec (length t) n) as [Hn|Hn].
  - constructor; [exact Hn|].
    destruct (body t l st) as [[l1|e] st1]; [|discriminate]. eapply IH, Hret.
  - destruct (Hbad t l st Hn) as [e He].
    destruct (body t l st) as [[l1|e'] st1]; simpl in He; discriminate.
Qed.

Lemma army_body_needs_three t l st :
  length t <> 3 -> exists e, fst (army_body w t l st) = Raise e.
Proof. destruct t as [|a [|b [|c [|? ?]]]]; simpl; intros H; try lia; eexists; reflexivity. Qed.

Lemma af_body_needs_three t l st :
  length t <> 3 -> exists e, fst (af_body w t l st) = Raise e.
Proof. destruct t as [|a [|b [|c [|? ?]]]]; simpl; intros H; try lia; eexists; reflexivity. Qed.

Lemma dw_body_needs_four t l st :
  length t <> 4 -> exists e, fst (dw_body w t l st) = Raise e.
Proof.
  destruct t as [|a [|b [|c [|d [|? ?]]]]]; simpl; intros H; try lia; eexists; reflexivity.
Qed.

Lemma dod_body_needs_three t l st :
  length t <> 3 -> exists e, fst (dod_body w t l st) = Raise e.
Proof. destruct t as [|a [|b [|c [|? ?]]]]; simpl; intros H; try lia; eexists; reflexivity. Qed.

End Arity.

(** X12. The loops unpack their entries: [main] can only run to its
    end on lists whose entries all have the arity their loop expects,
    three for the Army, Air Force and DoD Summary lists and four for the
    Defense-Wide list.  An entry of another arity raises (a [ValueError])
    and ends the run. *)
Theorem main_needs_well_shaped_lists :
  forall (w : world) (army af dw dod : list tuple) (st : state),
  fst (main_with w army af dw dod st) = Ret tt ->
  well_shaped army af dw dod.
Proof.
  intros w army af dw dod st. rewrite main_with_unfold.
  destruct (download_all w army af dw dod (snd (banner st))) as [[l|e] st1] eqn:Hall;
    [|discriminate].
  intros _. revert Hall. unfold download_all, bind, print. simpl.
  destruct (for_each (army_body w) army _ _) as [[l1|e] s1] eqn:H1; [|discriminate].
  destruct (for_each (af_body w) af _ _) as [[l2|e] s2] eqn:H2; [|discriminate].
  destruct (for_each (dw_body w) dw _ _) as [[l3|e] s3] eqn:H3; [|discriminate].
  destruct (for_each (dod_body w) dod _ _) as [[l4|e] s4] eqn:H4; [|discriminate].
  intros _. repeat split.
  - eapply (for_each_returns_arity (army_body w)); [apply army_body_needs_three|].
    now rewrite H1.
  - eapply (for_each_returns_arity (af_body w)); [apply af_body_needs_three|].
    now rewrite H2.
  - eapply (for_each_returns_arity (dw_body w)); [apply dw_body_needs_four|].
    now rewrite H3.
  - eapply (for_each_returns_arity (dod_body w)); [apply dod_body_needs_three|].
    now rewrite H4.
Qed.

(** X12 on a one-entry manifest that is served. *)
Lemma main_needs_well_shaped_lists_witness :
  fst (main_with serve_all [["Procurement"; "Aircraft Procurement Army"; "xml"]] [] [] []
         state0) = Ret tt
  /\ well_shaped [["Procurement"; "Aircraft Procurement Army"; "xml"]] [] [] [].
Proof.
  assert (H : fst (main_with serve_all [["Procurement"; "Aircraft Procurement Army"; "xml"]]
                     [] [] [] state0) = Ret tt) by (vm_compute; reflexivity).
  split; [exact H|].
  exact (main_needs_well_shaped_lists serve_all _ _ _ _ state0 H).
Defined.

(** ** Request urls *)

Section Urls.

Lemma percent_url_safe c : all_chars url_safe (urllib_parse.percent c) = true.
Proof. destruct c as [[] [] [] [] [] [] [] []]; reflexivity. Qed.

Lemma quote_url_safe s : all_chars url_safe (urllib_parse.quote s) = true.
Proof.
  induction s as [|c s IH]; [reflexivity|]. simpl.
  destruct (urllib_parse.always_safe c || Ascii.eqb c "/") eqn:E.
  - simpl. rewrite IH, andb_true_r. unfold url_safe. now rewrite E.
  - now rewrite all_chars_append, percent_url_safe, IH.
Qed.

Lemma unpercent_percent c : unpercent (urllib_parse.percent c) = c.
Proof. destruct c as [[] [] [] [] [] [] [] []]; reflexivity. Qed.

Lemma percent_not_kept : urllib_parse.always_safe "%" || Ascii.eqb "%" "/" = false.
Proof. reflexivity. Qed.

Lemma quote_injective s1 : forall s2,
  urllib_parse.quote s1 = urllib_parse.quote s2 -> s1 = s2.
Proof.
  induction s1 as [|c1 r1 IH]; intros [|c2 r2]; simpl.
  - reflexivity.
  - destruct (urllib_parse.always_safe c2 || Ascii.eqb c2 "/"); discriminate.
  - destruct (urllib_parse.always_safe c1 || Ascii.eqb c1 "/"); discriminate.
  - destruct (urllib_parse.always_safe c1 || Ascii.eqb c1 "/") eqn:E1,
             (urllib_parse.always_safe c2 || Ascii.eqb c2 "/") eqn:E2.
    + intros [= -> H]. now rewrite (IH _ H).
    + unfold urllib_parse.percent. rewrite !append_cons.
      intros [= -> _]. rewrite percent_not_kept in E1. discriminate.
    + unfold urllib_parse.percent. rewrite !append_cons.
      intros [= <- _]. rewrite percent_not_kept in E2. discriminate.
    + intros H.
      assert (Hp : urllib_parse.percent c1 = urllib_parse.percent c2
                   /\ urllib_parse.quote r1 = urllib_parse.quote r2).
      { unfold urllib_parse.percent in H. rewrite !append_cons, !append_empty_l in H.
        injection H as Hh Hl Hr.
        split; [unfold urllib_parse.percent; simpl; congruence | exact Hr]. }
      destruct Hp as [Hp Hr].
      rewrite <- (unpercent_percent c1), Hp, unpercent_percent. now rewrite (IH _ Hr).
Qed.

Lemma append_inv_head (a b b' : string) : a +:+ b = a +:+ b' -> b = b'.
Proof.
  induction a as [|c a IH]; [now rewrite !append_empty_l|].
  rewrite !append_cons. intros [= H]. now apply IH.
Qed.

End Urls.

(** X13. Whatever the names in an entry, the url of an Army or Air Force
    request is its base, a slash, and then only letters, digits and the
    characters [_ . - ~ / %]: every other character of the names is
    percent-encoded.  The Defense-Wide loop gives no such protection: its
    url is url-safe exactly when path, file name and extension already
    are. *)
Theorem request_urls_are_percent_encoded : forall category path filename ext : string,
  (exists tail, job_url (army_job category filename ext) = ARMY_BASE +:+ "/" +:+ tail
                /\ all_chars url_safe tail = true)
  /\ (exists tail, job_url (af_job category filename ext) = AF_BASE +:+ "/" +:+ tail
                   /\ all_chars url_safe tail = true)
  /\ (exists tail, job_url (dw_job category path filename ext) = DW_BASE +:+ "/" +:+ tail
                   /\ all_chars url_safe tail
                      = all_chars url_safe path && all_chars url_safe filename
                        && all_chars url_safe ext).
Proof.
  intros category path filename ext. unfold army_job, af_job, dw_job. cbn [job_url].
  split; [|split].
  - eexists. split; [reflexivity | apply quote_url_safe].
  - eexists. split; [reflexivity | apply quote_url_safe].
  - eexists. split; [reflexivity|].
    rewrite !all_chars_append. simpl. now rewrite !andb_assoc.
Qed.

(** X14. Percent-encoding loses nothing: two Army entries are requested
    from the same url exactly when category, file name and extension spell
    the same [category/filename.ext], and two Air Force entries exactly
    when they spell the same [filename.ext], the Air Force category
    playing no part in the url. *)
Theorem request_urls_identify_names : forall c f x c' f' x' : string,
  (job_url (army_job c f x) = job_url (army_job c' f' x')
   <-> c +:+ "/" +:+ f +:+ "." +:+ x = c' +:+ "/" +:+ f' +:+ "." +:+ x')
  /\ (job_url (af_job c f x) = job_url (af_job c' f' x')
      <-> f +:+ "." +:+ x = f' +:+ "." +:+ x').
Proof.
  intros c f x c' f' x'. unfold army_job, af_job. cbn [job_url]. split; split.
  - intros H. apply append_inv_head, append_inv_head in H. now apply quote_injective.
  - now intros ->.
  - intros H. apply append_inv_head, append_inv_head in H. now apply quote_injective.
  - now intros ->.
Qed.

(** ** Destinations without a directory part *)

Section Dirname.

Lemma through_last_absent ch s :
  PyStr.contains ch s = false -> PyStr.through_last ch s = EmptyString.
Proof. destruct s as [|c s]; [reflexivity|]. cbn [PyStr.through_last]. now intros ->. Qed.

Lemma through_last_present ch s :
  PyStr.contains ch s = true -> PyStr.through_last ch s <> EmptyString.
Proof.
  destruct s as [|c s]; [discriminate|]. cbn [PyStr.through_last]. intros ->. discriminate.
Qed.

Lemma rstrip_nonempty ch s : PyStr.all_eq ch s = false -> PyStr.rstrip ch s <> EmptyString.
Proof.
  destruct s as [|c s]; [discriminate|]. cbn [PyStr.rstrip]. intros ->. discriminate.
Qed.

Lemma dirname_empty p :
  os_path.dirname p = EmptyString <-> PyStr.contains os_path.sep p = false.
Proof.
  unfold os_path.dirname. destruct (PyStr.contains os_path.sep p) eqn:Hc.
  - split; [|discriminate]. intros H. exfalso.
    pose proof (through_last_present _ _ Hc) as Hne.
    destruct (PyStr.through_last os_path.sep p) as [|c h] eqn:Eh; [contradiction|].
    cbn [String.length Nat.eqb negb andb] in H.
    destruct (PyStr.all_eq os_path.sep (String c h)) eqn:Ea; cbn [negb] in H.
    + discriminate.
    + now apply (rstrip_nonempty _ _ Ea).
  - rewrite (through_last_absent _ _ Hc). split; reflexivity.
Qed.

Lemma dod_path_has_sep subfolder fname :
  PyStr.contains os_path.sep (os_path.join OUTPUT_DIR [subfolder; fname]) = true.
Proof.
  unfold os_path.join. cbn [fold_left]. unfold os_path.join_step at 1.
  destruct (PyStr.startswith os_path.sep fname) eqn:Hf.
  { destruct fname as [|c r]; [discriminate|]. simpl in Hf |- *. now rewrite Hf. }
  assert (H1 : PyStr.contains os_path.sep (os_path.join_step OUTPUT_DIR subfolder) = true).
  { unfold os_path.join_step.
    destruct (PyStr.startswith os_path.sep subfolder) eqn:Hs.
    - destruct subfolder as [|c r]; [discriminate|]. simpl in Hs |- *. now rewrite Hs.
    - cbn [String.length OUTPUT_DIR Nat.eqb orb].
      change (PyStr.endswith os_path.sep OUTPUT_DIR) with false. cbn iota.
      rewrite contains_append. cbn [PyStr.contains].
      rewrite Ascii.eqb_refl. cbn [orb]. apply orb_true_r. }
  destruct (_ || _); rewrite contains_append, H1; reflexivity.
Qed.

End Dirname.

(** X15. [os.path.dirname] of a destination is empty exactly when the
    destination holds no separator; on a machine where [os.makedirs] of
    the empty path fails, [download_file] therefore cannot save into the
    current directory: it raises [FileNotFoundError] before any request.
    The destinations [main] builds are never of that kind: in all four
    loops the path holds a separator, whatever the entry. *)
Theorem bare_file_names_are_refused :
  (forall dest, os_path.dirname dest = EmptyString <-> PyStr.contains "/" dest = false)
  /\ (forall n url dest st,
         PyStr.contains "/" dest = false ->
         fst (download_file (machine n) url dest st)
         = Raise (Exception "FileNotFoundError" "[Errno 2] No such file or directory: ''")
         /\ trace (snd (download_file (machine n) url dest st))
            = trace st ++ [EvMakedirs EmptyString])
  /\ (forall category path filename ext url subfolder fname,
         os_path.dirname (job_path (army_job category filename ext)) <> EmptyString
         /\ os_path.dirname (job_path (af_job category filename ext)) <> EmptyString
         /\ os_path.dirname (job_path (dw_job category path filename ext)) <> EmptyString
         /\ os_path.dirname (job_path (dod_job url subfolder fname)) <> EmptyString).
Proof.
  split; [exact dirname_empty|]. split.
  - intros n url dest st Hd. apply dirname_empty in Hd.
    unfold download_file, bind, os_makedirs. rewrite Hd. simpl. split; reflexivity.
  - intros category path filename ext url subfolder fname.
    assert (Hsvc : forall svc rest, os_path.dirname ("fy2026_budget/" +:+ svc +:+ rest)
                                    <> EmptyString).
    { intros svc rest. rewrite dirname_empty. discriminate. }
    destruct (service_paths_anchored category path filename ext) as (A & F & D).
    destruct A as [ra ->], F as [rf ->], D as [rd ->].
    repeat split.
    + apply (Hsvc "Army/" ra).
    + apply (Hsvc "AirForce/" rf).
    + apply (Hsvc "DefenseWide/" rd).
    + rewrite dirname_empty. unfold dod_job. cbn [job_path].
      now rewrite dod_path_has_sep.
Qed.
